(** * Timetable generator: the CP-SAT model built by [TimeTableGenerator]

    A shallow embedding of [timetable_generator_new.py]: the preprocessing
    of the subject and room records, the construction of the boolean
    assignment variables, the four constraint families, the objective, and
    the extraction of the timetable from the solver's answer.

    Python values are modelled as follows.
    - [str] is [string], the UTF-8 bytes of the text, so equality and
      ordering agree with Python's; indexing, [strip] and [int] work on the
      characters, with the white space and the decimal digits of Unicode 14.
    - [dict]s that are only looked up are [gmap]s; the [assignments] dict,
      which the code iterates, is an association list in insertion order.
    - [set]s are [gset]s; [sorted(list(s))] is a merge sort of the elements.
    - the methods mutate [self]: they are functions from the generator state
      to a result and a new generator state. *)

From stdpp Require Import base strings list gmap sorting.
From Stdlib Require Import ZArith Ascii.

Local Open Scope string_scope.

(** ** Python primitives *)

Module Py.

(** The UTF-8 bytes of the character with code point [n]. *)
Definition utf8 (n : N) : string :=
  let byte (k : N) := ascii_of_N k in
  let cont (k : N) := byte (0x80 + k mod 64)%N in
  if (n <? 0x80)%N then String (byte n) ""
  else if (n <? 0x800)%N then
    String (byte (0xC0 + n / 64)%N) (String (cont n) "")
  else if (n <? 0x10000)%N then
    String (byte (0xE0 + n / 4096)%N)
      (String (cont (n / 64)%N) (String (cont n) ""))
  else
    String (byte (0xF0 + n / 262144)%N)
      (String (cont (n / 4096)%N)
         (String (cont (n / 64)%N) (String (cont n) ""))).

(** A byte that continues a character begun by an earlier byte. *)
Definition is_continuation (c : ascii) : bool :=
  bool_decide (128 ≤ nat_of_ascii c < 192)%nat.

(** The characters of a string, in order: each is a byte together with the
    continuation bytes that follow it. *)
Fixpoint chars (s : string) : list string :=
  match s with
  | "" => []
  | String c s' =>
      match chars s' with
      | String c' ch :: rest =>
          if is_continuation c' then String c (String c' ch) :: rest
          else String c "" :: String c' ch :: rest
      | _ => [String c ""]
      end
  end.

(** The characters [c] with [c.isspace()], by code point. *)
Definition whitespace : list N :=
  [0x9; 0xA; 0xB; 0xC; 0xD; 0x1C; 0x1D; 0x1E; 0x1F; 0x20; 0x85; 0xA0;
   0x1680; 0x2000; 0x2001; 0x2002; 0x2003; 0x2004; 0x2005; 0x2006; 0x2007;
   0x2008; 0x2009; 0x200A; 0x2028; 0x2029; 0x202F; 0x205F; 0x3000]%N.

(** [l] without the first of the sequences [ws] it starts with. *)
Definition drop_first (ws : list (list ascii)) (l : list ascii)
    : option (list ascii) :=
  match filter (λ w, w `prefix_of` l) ws with
  | w :: _ => Some (drop (length w) l)
  | [] => None
  end.

(** Drop the sequences of [ws] from the front of [l] while there is one. *)
Fixpoint drop_all (ws : list (list ascii)) (n : nat) (l : list ascii)
    : list ascii :=
  match n with
  | O => l
  | S n =>
      match drop_first ws l with
      | Some l' => drop_all ws n l'
      | None => l
      end
  end.

Definition space_bytes : list (list ascii) :=
  (λ n, String.list_ascii_of_string (utf8 n)) <$> whitespace.

Definition lstrip_bytes (l : list ascii) : list ascii :=
  drop_all space_bytes (length l) l.

Definition rstrip_bytes (l : list ascii) : list ascii :=
  reverse (drop_all (reverse <$> space_bytes) (length l) (reverse l)).

(** [s.strip()]: the white space characters are removed from both ends. *)
Definition strip (s : string) : string :=
  String.string_of_list_ascii
    (rstrip_bytes (lstrip_bytes (String.list_ascii_of_string s))).

(** [s[i]]; [None] stands for the [IndexError]. *)
Definition char_at (i : nat) (s : string) : option string := chars s !! i.

(** [s[-1]]; [None] stands for the [IndexError] on the empty string. *)
Definition last_char (s : string) : option string := last (chars s).

(** The characters whose decimal digit value is zero; the nine characters
    after each of them are the digits one to nine of the same script. *)
Definition decimal_zeros : list N :=
  [0x30; 0x660; 0x6F0; 0x7C0; 0x966; 0x9E6; 0xA66; 0xAE6; 0xB66; 0xBE6;
   0xC66; 0xCE6; 0xD66; 0xDE6; 0xE50; 0xED0; 0xF20; 0x1040; 0x1090; 0x17E0;
   0x1810; 0x1946; 0x19D0; 0x1A80; 0x1A90; 0x1B50; 0x1BB0; 0x1C40; 0x1C50;
   0xA620; 0xA8D0; 0xA900; 0xA9D0; 0xA9F0; 0xAA50; 0xABF0; 0xFF10; 0x104A0;
   0x10D30; 0x11066; 0x110F0; 0x11136; 0x111D0; 0x112F0; 0x11450; 0x114D0;
   0x11650; 0x116C0; 0x11730; 0x118E0; 0x11950; 0x11C50; 0x11D50; 0x11DA0;
   0x16A60; 0x16AC0; 0x16B50; 0x1D7CE; 0x1D7D8; 0x1D7E2; 0x1D7EC; 0x1D7F6;
   0x1E140; 0x1E2F0; 0x1E950; 0x1FBF0]%N.

(** [int(c)] for a one-character string: the value of a decimal digit of
    any script; [None] stands for [ValueError]. *)
Definition int_of_char (c : string) : option Z :=
  head (zero ← decimal_zeros;
        d ← seq 0 10;
        if bool_decide (utf8 (zero + N.of_nat d) = c) then [Z.of_nat d]
        else []).

(** [sorted(list(s))] for a set of strings. *)
Definition sorted (s : gset string) : list string :=
  merge_sort String.le (elements s).

(** [for x in xs: body], threading the state the body mutates. *)
Definition for_ {A S : Type} (xs : list A) (body : A → S → S) (st : S) : S :=
  foldl (λ st x, body x st) st xs.

(** [d[k] = v] on a dict kept in insertion order: an existing key keeps its
    position and takes the new value, a new key goes to the end. *)
Fixpoint dict_set {K V : Type} `{EqDecision K}
    (d : list (K * V)) (k : K) (v : V) : list (K * V) :=
  match d with
  | [] => [(k, v)]
  | (k', v') :: d' =>
      if decide (k' = k) then (k, v) :: d' else (k', v') :: dict_set d' k v
  end.

End Py.

(** ** The CP-SAT interface used by the generator

    The solver is an external library. Its model is the list of the boolean
    variables created, the cardinality constraints added and the linear
    objective; its answer is a status and a value for every variable. *)

Module cp_model.

Inductive status := UNKNOWN | MODEL_INVALID | FEASIBLE | INFEASIBLE | OPTIMAL.

Global Instance status_eq_dec : EqDecision status.
Proof. solve_decision. Defined.

Definition var := nat.

Inductive constraint :=
| ExactlyOne (lits : list var)
| AtMostOne (lits : list var).

Record CpModel := {
  num_vars : nat;
  constraints : list constraint;
  objective : list (Z * var)   (* the terms [coefficient * variable] to maximize *)
}.

Definition CpModel_new : CpModel :=
  {| num_vars := 0; constraints := []; objective := [] |}.

Definition NewBoolVar (m : CpModel) : var * CpModel :=
  (num_vars m,
   {| num_vars := S (num_vars m); constraints := constraints m;
      objective := objective m |}).

Definition add_constraint (c : constraint) (m : CpModel) : CpModel :=
  {| num_vars := num_vars m; constraints := constraints m ++ [c];
     objective := objective m |}.

Definition AddExactlyOne (lits : list var) : CpModel → CpModel :=
  add_constraint (ExactlyOne lits).

Definition AddAtMostOne (lits : list var) : CpModel → CpModel :=
  add_constraint (AtMostOne lits).

Definition Maximize (terms : list (Z * var)) (m : CpModel) : CpModel :=
  {| num_vars := num_vars m; constraints := constraints m; objective := terms |}.

(** *** Meaning of a model *)

Definition valuation := var → bool.

(** Number of literals of [lits] that are true, with multiplicity. *)
Definition count_true (value : valuation) (lits : list var) : nat :=
  length (filter (λ x, value x = true) lits).

Definition holds (value : valuation) (c : constraint) : Prop :=
  match c with
  | ExactlyOne lits => count_true value lits = 1%nat
  | AtMostOne lits => (count_true value lits ≤ 1)%nat
  end.

Global Instance holds_dec value c : Decision (holds value c).
Proof. destruct c; simpl; apply _. Defined.

Definition feasible (m : CpModel) (value : valuation) : Prop :=
  Forall (holds value) (constraints m).

Definition term_value (value : valuation) (t : Z * var) : Z :=
  if value t.2 then t.1 else 0%Z.

Definition objective_value (m : CpModel) (value : valuation) : Z :=
  foldr (λ t acc, (term_value value t + acc)%Z) 0%Z (objective m).

(** Every variable a constraint or the objective mentions was created. *)
Definition lits_of (c : constraint) : list var :=
  match c with ExactlyOne l | AtMostOne l => l end.

Definition valid (m : CpModel) : Prop :=
  Forall (λ c, Forall (λ x, (x < num_vars m)%nat) (lits_of c)) (constraints m)
  ∧ Forall (λ t, (t.2 < num_vars m)%nat) (objective m).

(** *** The solver's answer *)

Record response := { status_of : status; Value : valuation }.

(** What [CpSolver.Solve] promises under a time limit: an [OPTIMAL] answer
    is feasible and maximal, a [FEASIBLE] one is feasible, [INFEASIBLE] is
    only answered when no valuation is feasible, [MODEL_INVALID] only for
    a model that does not validate, and [UNKNOWN] (the limit was reached
    before anything was found or refuted) promises nothing. *)
Definition answers (m : CpModel) (r : response) : Prop :=
  match status_of r with
  | OPTIMAL =>
      feasible m (Value r)
      ∧ ∀ value, feasible m value →
          (objective_value m value ≤ objective_value m (Value r))%Z
  | FEASIBLE => feasible m (Value r)
  | INFEASIBLE => ∀ value, ¬ feasible m value
  | MODEL_INVALID => ¬ valid m
  | UNKNOWN => True
  end.

(** A solver honours the contract on the model it is given. *)
Definition honours (Solve : CpModel → response) (m : CpModel) : Prop :=
  answers m (Solve m).

End cp_model.

Import cp_model.

(** ** Data of the generator *)

(** The value of a lecturer field of a subject record: absent, a single
    string, or a list whose entries are strings or other JSON values
    ([None]). A field holding a value that cannot be iterated (a number,
    [null]) is outside this type. *)
Inductive names :=
| NamesAbsent
| NameStr (s : string)
| NameList (l : list (option string)).

(** A subject record of [subjects_data], by JSON key. *)
Record subject := {
  subj_code : option string;        (* 'code' *)
  subj_niveau : option string;      (* 'niveau' *)
  subj_semestre : option string;    (* 'semestre' *)
  subj_name : option string;        (* 'name' *)
  subj_lecturers : names;           (* 'Course Lecturer' *)
  subj_assistants : names;          (* 'Assitant lecturer' *)
  subj_credit : option Z            (* 'credit' *)
}.

(** An entry of [rooms_data['Informatique']]. *)
Record room_entry := { num : option string }.

(** A value of the [courses] dict. *)
Record course_info := {
  name : string;
  lecturers : list string;
  assistants : list string;
  credit : Z
}.

(** [processed_data], by key. *)
Record processed := {
  classes : list string;
  courses : gmap string course_info;
  teachers : list string;
  rooms : list string;
  curriculum : gmap string (list string);
  days : list string;
  periods : list (string * Z)
}.

(** A cell of the timetable. *)
Record session := {
  course : string;
  teacher : string;
  room : string;
  course_name : string
}.

(** The generator object; [processed_data = None] is the empty dict. *)
Record TimeTableGenerator := {
  rooms_data : list room_entry;              (* rooms_data.get('Informatique', []) *)
  subjects_data : list subject;
  processed_data : option processed;
  timetable : gmap string (gmap string (gmap string session));
  self_days : list string;
  self_periods : list (string * Z)
}.

(** [__init__], with the data [load_data] reads already in place. *)
Definition init (rooms_json : list room_entry) (subjects : list subject)
    : TimeTableGenerator :=
  {| rooms_data := rooms_json;
     subjects_data := subjects;
     processed_data := None;
     timetable := ∅;
     self_days := ["Lundi"; "Mardi"; "Mercredi"; "Jeudi"; "Vendredi"; "Samedi"];
     self_periods := [("07:00-09:55", 1); ("10:05-12:55", 2); ("13:05-15:55", 3);
                      ("16:05-18:55", 4); ("19:05-21:55", 5)]%Z |}.

(** ** [preprocess_data] *)

Definition names_list (n : names) : list (option string) :=
  match n with
  | NamesAbsent => []
  | NameStr s => [Some s]
  | NameList l => l
  end.

(** [[l.strip() for l in ls if l and isinstance(l, str) and l.strip()]] *)
Definition valid_names (ls : list (option string)) : list string :=
  omap (λ l, match l with
             | Some s =>
                 if bool_decide (s ≠ "") && bool_decide (Py.strip s ≠ "")
                 then Some (Py.strip s) else None
             | None => None
             end) ls.

(** The locals [classes], [courses], [teachers], [curriculum] of the loop. *)
Record pre_state := {
  pre_classes : gset string;
  pre_courses : gmap string course_info;
  pre_teachers : gset string;
  pre_curriculum : gmap string (list string)
}.

(** [for x in xs: body] where the body may raise ([None]). *)
Fixpoint try_for {A S : Type} (xs : list A) (body : A → S → option S) (st : S)
    : option S :=
  match xs with
  | [] => Some st
  | x :: xs' =>
      match body x st with
      | Some st' => try_for xs' body st'
      | None => None
      end
  end.

(** One iteration of the loop over the subjects. Both defaults of the two
    [subject.get] calls are evaluated before the lookup, so [int(code[-1])]
    raises on a code that does not end with a digit even when the subject
    has a 'semestre'. *)
Definition preprocess_subject (s : subject) (st : pre_state) : option pre_state :=
  match subj_code s with
  | None => Some st                                           (* continue *)
  | Some code =>
      if bool_decide (code = "") then Some st else            (* continue *)
      let level_default :=
        match Py.char_at 3 code with Some c => c | None => "1" end in
      match Py.last_char code ≫= Py.int_of_char with
      | None => None                                          (* ValueError *)
      | Some d =>
          let semester_default := if bool_decide (d ≤ 5)%Z then "s1" else "s2" in
          let level := default level_default (subj_niveau s) in
          let semester := default semester_default (subj_semestre s) in
          let class_name := "L" +:+ level +:+ "_" +:+ semester in
          let valid_lecturers := valid_names (names_list (subj_lecturers s)) in
          let valid_assistants := valid_names (names_list (subj_assistants s)) in
          Some {|
            pre_classes := pre_classes st ∪ {[ class_name ]};
            pre_curriculum :=
              <[ class_name := (default [] (pre_curriculum st !! class_name) ++ [code])%list ]>
                (pre_curriculum st);
            pre_courses :=
              <[ code := {| name := default "Sans nom" (subj_name s);
                            lecturers := valid_lecturers;
                            assistants := valid_assistants;
                            credit := default 0%Z (subj_credit s) |} ]>
                (pre_courses st);
            pre_teachers :=
              pre_teachers st ∪ list_to_set valid_lecturers ∪ list_to_set valid_assistants
          |}
      end
  end.

Definition pre_empty : pre_state :=
  {| pre_classes := ∅; pre_courses := ∅; pre_teachers := ∅; pre_curriculum := ∅ |}.

(** The body of the [try]: the processed data, or [None] on an exception. *)
Definition preprocess (self : TimeTableGenerator) : option processed :=
  let rooms := omap num (rooms_data self) in
  match try_for (subjects_data self) preprocess_subject pre_empty with
  | Some st =>
      Some {| classes := Py.sorted (pre_classes st);
              courses := pre_courses st;
              teachers := Py.sorted (pre_teachers st);
              rooms := rooms;
              curriculum := pre_curriculum st;
              days := self_days self;
              periods := self_periods self |}
  | None => None
  end.

(** [preprocess_data]: [True] and the processed data stored, or [False] with
    the generator unchanged when the body raised. *)
Definition preprocess_data (self : TimeTableGenerator) : bool * TimeTableGenerator :=
  match preprocess self with
  | Some pd =>
      (true, {| rooms_data := rooms_data self; subjects_data := subjects_data self;
                processed_data := Some pd; timetable := timetable self;
                self_days := self_days self; self_periods := self_periods self |})
  | None => (false, self)
  end.

(** ** [create_model] *)

(** The key of an assignment variable, the tuple
    [(class_name, course_code, teacher, room, day, period)]. *)
Record key := Key {
  k_class : string;     (* key[0] *)
  k_course : string;    (* key[1] *)
  k_teacher : string;   (* key[2] *)
  k_room : string;      (* key[3] *)
  k_day : string;       (* key[4] *)
  k_period : string     (* key[5] *)
}.

Global Instance key_eq_dec : EqDecision key.
Proof. solve_decision. Defined.

(** The [assignments] dict, in insertion order. *)
Abbreviation assignments_dict := (list (key * var)).

(** The teacher used for a course that lists none. *)
Definition unassigned : string := "Non assigné".

(** [curriculum.get(class_name, [])] *)
Definition curriculum_of (pd : processed) (class_name : string) : list string :=
  default [] (curriculum pd !! class_name).

(** [teachers_for_course], after the replacement of an empty list. *)
Definition teachers_for_course (pd : processed) (course_code : string) : list string :=
  let course_info := courses pd !! course_code in
  let listed := (from_option lecturers [] course_info
                 ++ from_option assistants [] course_info)%list in
  match listed with
  | [] => [unassigned]
  | _ => listed
  end.

(** [assignments[key] = model.NewBoolVar(...)] *)
Definition new_assignment (k : key) (st : CpModel * assignments_dict)
    : CpModel * assignments_dict :=
  let '(v, model) := NewBoolVar st.1 in
  (model, Py.dict_set st.2 k v).

(** The decision variables: one per (class, course of its curriculum,
    teacher of the course, room, day, period). *)
Definition create_variables (pd : processed)
    : CpModel * assignments_dict → CpModel * assignments_dict :=
  Py.for_ (classes pd) (λ class_name,
  Py.for_ (curriculum_of pd class_name) (λ course_code,
  Py.for_ (teachers_for_course pd course_code) (λ teacher,
    if bool_decide (Py.strip teacher = "") then id else        (* continue *)
    Py.for_ (rooms pd) (λ room,
    Py.for_ (days pd) (λ day,
    Py.for_ (periods pd) (λ pw,
      new_assignment (Key class_name course_code teacher room day pw.1))))))).

(** [[assignments[key] for key in assignments if P key]] *)
Definition vars_where (P : key → Prop) `{∀ k, Decision (P k)}
    (assignments : assignments_dict) : list var :=
  (filter (λ kv, P kv.1) assignments).*2.

(** 1. Every course is scheduled exactly once a week. *)
Definition add_course_constraints (pd : processed) (assignments : assignments_dict)
    : CpModel → CpModel :=
  Py.for_ (classes pd) (λ class_name,
  Py.for_ (curriculum_of pd class_name) (λ course_code,
    let course_vars :=
      vars_where (λ k, k_class k = class_name ∧ k_course k = course_code) assignments in
    match course_vars with
    | [] => id
    | _ => AddExactlyOne course_vars
    end)).

(** 2. A class has at most one course at a time. *)
Definition add_class_constraints (pd : processed) (assignments : assignments_dict)
    : CpModel → CpModel :=
  Py.for_ (classes pd) (λ class_name,
  Py.for_ (days pd) (λ day,
  Py.for_ (periods pd) (λ pw,
    let class_vars :=
      vars_where (λ k, k_class k = class_name ∧ k_day k = day ∧ k_period k = pw.1)
                 assignments in
    match class_vars with
    | [] => id
    | _ => AddAtMostOne class_vars
    end))).

(** 3. A room hosts at most one course at a time. *)
Definition add_room_constraints (pd : processed) (assignments : assignments_dict)
    : CpModel → CpModel :=
  Py.for_ (rooms pd) (λ room,
  Py.for_ (days pd) (λ day,
  Py.for_ (periods pd) (λ pw,
    let room_vars :=
      vars_where (λ k, k_room k = room ∧ k_day k = day ∧ k_period k = pw.1)
                 assignments in
    match room_vars with
    | [] => id
    | _ => AddAtMostOne room_vars
    end))).

(** 4. A teacher of [processed_data['teachers']] gives at most one course at
    a time. *)
Definition add_teacher_constraints (pd : processed) (assignments : assignments_dict)
    : CpModel → CpModel :=
  Py.for_ (teachers pd) (λ teacher,
  Py.for_ (days pd) (λ day,
  Py.for_ (periods pd) (λ pw,
    let teacher_vars :=
      vars_where (λ k, k_teacher k = teacher ∧ k_day k = day ∧ k_period k = pw.1)
                 assignments in
    match teacher_vars with
    | [] => id
    | _ => AddAtMostOne teacher_vars
    end))).

(** [next((5 - w for p, w in periods if p == period), 0)] *)
Definition period_weight (pd : processed) (period : string) : Z :=
  default 0%Z (head ((λ pw, 5 - pw.2)%Z <$> filter (λ pw, pw.1 = period) (periods pd))).

(** [objective_terms] *)
Definition objective_terms (pd : processed) (assignments : assignments_dict)
    : list (Z * var) :=
  (λ kv, (period_weight pd (k_period kv.1), kv.2)) <$> assignments.

(** The model as it stands when [Maximize] is reached, and the dict. *)
Definition build (pd : processed) : CpModel * assignments_dict :=
  let '(model, assignments) := create_variables pd (CpModel_new, []) in
  let model := add_course_constraints pd assignments model in
  let model := add_class_constraints pd assignments model in
  let model := add_room_constraints pd assignments model in
  let model := add_teacher_constraints pd assignments model in
  (model, assignments).

(** The model handed to [solver.Solve]. *)
Definition model_of (pd : processed) : CpModel :=
  Maximize (objective_terms pd (build pd).2) (build pd).1.

Definition assignments_of (pd : processed) : assignments_dict := (build pd).2.

(** The [timetable] dict: class, then day, then period. *)
Abbreviation timetable_dict := (gmap string (gmap string (gmap string session))).

(** [self.timetable[class_name][day][period] = s], creating the inner dicts
    when they are missing. *)
Definition timetable_set (tt : timetable_dict)
    (class_name day period : string) (s : session) : timetable_dict :=
  let by_day := default ∅ (tt !! class_name) in
  let by_period := default ∅ (by_day !! day) in
  <[ class_name := <[ day := <[ period := s ]> by_period ]> by_day ]> tt.

(** The dict stored in a cell for the variable of key [k]. *)
Definition session_of (pd : processed) (k : key) : session :=
  {| course := k_course k;
     teacher := k_teacher k;
     room := k_room k;
     course_name := from_option name "Inconnu" (courses pd !! k_course k) |}.

(** The loop that fills the timetable from the variables the solver set. *)
Definition extract_timetable (pd : processed) (assignments : assignments_dict)
    (value : valuation) : timetable_dict :=
  Py.for_ assignments (λ kv tt,
    if value kv.2 then
      timetable_set tt (k_class kv.1) (k_day kv.1) (k_period kv.1) (session_of pd kv.1)
    else tt) ∅.

(** [timetable[class_name][day][period]], when the three keys are present. *)
Definition cell (tt : timetable_dict) (class_name day period : string)
    : option session :=
  match tt !! class_name with
  | Some by_day =>
      match by_day !! day with
      | Some by_period => by_period !! period
      | None => None
      end
  | None => None
  end.

(** What [create_model] prints. *)
Inductive message :=
| MsgInsufficientData                      (* Données insuffisantes ... *)
| MsgCreating                              (* Création du modèle ... *)
| MsgNoVariables                           (* Aucune variable pour l'objectif ... *)
| MsgSolving                               (* Résolution du modèle... *)
| MsgSolution (optimal : bool) (score : Z) (* Solution optimale|réalisable trouvée ... *)
| MsgNoSolution (st : status).             (* Aucune solution trouvée. Statut: ... *)

Record outcome := {
  returned : bool;
  printed : list message;
  self_after : TimeTableGenerator
}.

Definition with_timetable (self : TimeTableGenerator) (tt : timetable_dict)
    : TimeTableGenerator :=
  {| rooms_data := rooms_data self; subjects_data := subjects_data self;
     processed_data := processed_data self; timetable := tt;
     self_days := self_days self; self_periods := self_periods self |}.

(** [create_model], given the solver it calls. On processed data of the
    type above nothing in the body raises, so the [except] branch has no
    counterpart here. *)
Definition create_model (self : TimeTableGenerator) (Solve : CpModel → response)
    : outcome :=
  match processed_data self with
  | None =>
      {| returned := false; printed := [MsgInsufficientData]; self_after := self |}
  | Some pd =>
      match classes pd with
      | [] =>
          {| returned := false; printed := [MsgInsufficientData]; self_after := self |}
      | _ =>
          let '(model, assignments) := build pd in
          match objective_terms pd assignments with
          | [] =>
              {| returned := false; printed := [MsgCreating; MsgNoVariables];
                 self_after := self |}
          | terms =>
              let model := Maximize terms model in
              let r := Solve model in
              match status_of r with
              | OPTIMAL | FEASIBLE =>
                  {| returned := true;
                     printed := [MsgCreating; MsgSolving;
                                 MsgSolution (bool_decide (status_of r = OPTIMAL))
                                             (objective_value model (Value r))];
                     self_after :=
                       with_timetable self (extract_timetable pd assignments (Value r)) |}
              | st =>
                  {| returned := false;
                     printed := [MsgCreating; MsgSolving; MsgNoSolution st];
                     self_after := self |}
              end
          end
      end
  end.

(** * The other methods *)

(** [load_data], [print_timetable], [generate_pdf] and [run]. The files and
    the PDF library are outside the program: a file is given by what
    [load_data] finds of it, the library by whether it accepts the elements
    it is handed. What the methods print is kept for [print_timetable] and
    for the last message of [generate_pdf] only. *)

(** ** Python text primitives *)

Module PyStr.

(** A byte that continues a UTF-8 character. *)
Definition is_continuation (c : ascii) : bool :=
  let n := nat_of_ascii c in bool_decide (128 ≤ n ≤ 191)%nat.

(** [len(s)]: the number of characters. *)
Fixpoint len (s : string) : nat :=
  match s with
  | "" => 0
  | String c s' => if is_continuation c then len s' else S (len s')
  end.

(** [s[:n]]: the first [n] characters. *)
Fixpoint take (n : nat) (s : string) : string :=
  match s with
  | "" => ""
  | String c s' =>
      if is_continuation c then String c (take n s')
      else match n with
           | 0 => ""
           | S n' => String c (take n' s')
           end
  end.

(** [c * n] *)
Fixpoint repeat (c : string) (n : nat) : string :=
  match n with
  | 0 => ""
  | S n' => c +:+ repeat c n'
  end.

(** [f"{s:<width}"]: padded with spaces on the right up to [width]
    characters. *)
Definition ljust (width : nat) (s : string) : string :=
  s +:+ repeat " " (width - len s).

(** [sep.join(parts)] *)
Fixpoint join (sep : string) (parts : list string) : string :=
  match parts with
  | [] => ""
  | [p] => p
  | p :: ps => p +:+ sep +:+ join sep ps
  end.

Definition newline : string := String "010" "".

End PyStr.

(** ** [load_data] *)

(** A file as [load_data] finds it: missing, present but failing to open
    or to parse, or parsed. *)
Inductive file (A : Type) :=
| Missing
| Unreadable
| Content (a : A).
Global Arguments Missing {A}.
Global Arguments Unreadable {A}.
Global Arguments Content {A} a.

(** The value of a semester: [semestre.get('subjects', [])]. *)
Record semestre_json := { sem_subjects : option (list subject) }.

(** The subjects file: [subjects_json.get('niveau', {})], an object from a
    level to an object from a semester to its subjects, in the order of the
    file. *)
Record subjects_json := {
  json_niveau : option (list (string * list (string * semestre_json)))
}.

(** [subject['niveau'] = niveau_id; subject['semestre'] = semestre_id] *)
Definition tag_subject (niveau_id semestre_id : string) (s : subject) : subject :=
  {| subj_code := subj_code s; subj_niveau := Some niveau_id;
     subj_semestre := Some semestre_id; subj_name := subj_name s;
     subj_lecturers := subj_lecturers s; subj_assistants := subj_assistants s;
     subj_credit := subj_credit s |}.

(** The loops that flatten the file into [all_subjects]. *)
Definition flatten_subjects (j : subjects_json) : list subject :=
  Py.for_ (default [] (json_niveau j)) (λ niveau,
  Py.for_ niveau.2 (λ semestre,
  Py.for_ (default [] (sem_subjects semestre.2)) (λ subject all_subjects,
    (all_subjects ++ [tag_subject niveau.1 semestre.1 subject])%list))) [].

Definition with_rooms_data (self : TimeTableGenerator) (r : list room_entry)
    : TimeTableGenerator :=
  {| rooms_data := r; subjects_data := subjects_data self;
     processed_data := processed_data self; timetable := timetable self;
     self_days := self_days self; self_periods := self_periods self |}.

Definition with_subjects_data (self : TimeTableGenerator) (s : list subject)
    : TimeTableGenerator :=
  {| rooms_data := rooms_data self; subjects_data := s;
     processed_data := processed_data self; timetable := timetable self;
     self_days := self_days self; self_periods := self_periods self |}.

(** [load_data], given the two files. The content of the rooms file is the
    list under 'Informatique', if any. Both files are looked for before
    either is opened; the rooms are stored before the subjects file is
    opened. *)
Definition load_data (self : TimeTableGenerator)
    (rooms_file : file (option (list room_entry)))
    (subjects_file : file subjects_json) : bool * TimeTableGenerator :=
  match rooms_file, subjects_file with
  | Missing, _ => (false, self)                      (* FileNotFoundError *)
  | _, Missing => (false, self)                      (* FileNotFoundError *)
  | Unreadable, _ => (false, self)
  | Content r, Unreadable => (false, with_rooms_data self (default [] r))
  | Content r, Content j =>
      (true, with_subjects_data (with_rooms_data self (default [] r))
               (flatten_subjects j))
  end.

(** ** [print_timetable] *)

(** The text of a cell of the printed table. *)
Definition printed_cell (tt : timetable_dict) (class_name day period : string)
    : string :=
  match cell tt class_name day period with
  | Some session =>
      let text := course session +:+ PyStr.newline +:+ teacher session
                  +:+ PyStr.newline +:+ room session in
      " " +:+ PyStr.ljust 13 text +:+ " |"
  | None => " ----------- |"
  end.

(** The lines printed for a class. *)
Definition printed_class (pd : processed) (tt : timetable_dict)
    (class_name : string) : list string :=
  let rule := PyStr.repeat "-" 80 in
  let header :=
    Py.for_ (periods pd) (λ pw header, header +:+ " " +:+ pw.1 +:+ " |")
            "| Jour        |" in
  ([PyStr.newline +:+ "Classe: " +:+ class_name; rule; header; rule]
   ++ ((λ day,
         Py.for_ (periods pd)
           (λ pw row, row +:+ printed_cell tt class_name day pw.1)
           ("| " +:+ PyStr.ljust 11 day +:+ " |")) <$> days pd)
   ++ [rule])%list.

(** [print_timetable]: the lines printed, or [None] for the [KeyError] that
    escapes at the first class when there is no processed data. *)
Definition print_timetable (self : TimeTableGenerator) : option (list string) :=
  if bool_decide (size (timetable self) = 0) then
    Some ["Aucun emploi du temps généré."]
  else
    let banner := [PyStr.newline +:+ PyStr.repeat "=" 80;
                   "                           EMPLOI DU TEMPS";
                   PyStr.repeat "=" 80] in
    let footer := [PyStr.newline +:+ PyStr.repeat "=" 80] in
    match Py.sorted (dom (timetable self)), processed_data self with
    | [], _ => Some (banner ++ footer)%list
    | _ :: _, None => None
    | class_names, Some pd =>
        Some (banner
              ++ (class_names ≫= printed_class pd (timetable self))
              ++ footer)%list
    end.

(** ** [generate_pdf] *)

(** What is handed to the PDF library. *)
Inductive element :=
| Title (text : string)                 (* Paragraph(..., styles['Title']) *)
| TableOf (data : list (list string))   (* Table(table_data) with its style *)
| Spacer.                               (* Paragraph("<br/><br/>", ...) *)

(** [(display_name[:20] + '...') if len(display_name) > 20 else display_name] *)
Definition truncate_name (display_name : string) : string :=
  if bool_decide (20 < PyStr.len display_name)%nat
  then PyStr.take 20 display_name +:+ "..."
  else display_name.

(** The text of a cell of the PDF table. The name of a course is a string
    here, so [str(course_name)] is the name itself. *)
Definition pdf_cell (tt : timetable_dict) (class_name day period : string)
    : string :=
  match cell tt class_name day period with
  | Some session =>
      let cell_content :=
        [course session; truncate_name (course_name session);
         "Prof: " +:+ teacher session; "Salle: " +:+ room session] in
      PyStr.join PyStr.newline (filter (λ c, c ≠ "") cell_content)
  | None => "Aucun cours"
  end.

(** [table_data] of a class. *)
Definition table_data (pd : processed) (tt : timetable_dict)
    (class_name : string) : list (list string) :=
  ("Jour/Période" :: (periods pd).*1)
  :: ((λ day, day :: ((λ pw, pdf_cell tt class_name day pw.1) <$> periods pd))
      <$> days pd).

(** The elements appended for a class. *)
Definition pdf_elements (pd : processed) (tt : timetable_dict)
    (class_name : string) : list element :=
  let data := table_data pd tt class_name in
  (Title ("Emploi du temps - " +:+ class_name)
   :: if bool_decide (1 < length data)%nat then [TableOf data; Spacer] else [])%list.

(** What [generate_pdf] prints before it returns. *)
Inductive pdf_message :=
| PdfNoTimetable     (* Aucun emploi du temps à exporter ... *)
| PdfGenerated       (* PDF généré avec succès ... *)
| PdfNoValidData     (* Aucune donnée valide pour générer le PDF *)
| PdfError.          (* Erreur lors de la génération du PDF ... *)

(** [generate_pdf], given the outcome of the PDF library on the elements:
    [render] is [false] when creating the paragraphs and tables or building
    the document raises. Without processed data the first class raises a
    [KeyError], which is caught. *)
Definition generate_pdf (self : TimeTableGenerator) (render : list element → bool)
    : bool * pdf_message :=
  if bool_decide (size (timetable self) = 0) then (false, PdfNoTimetable)
  else
    match Py.sorted (dom (timetable self)), processed_data self with
    | [], _ => (false, PdfNoValidData)
    | _ :: _, None => (false, PdfError)
    | class_names, Some pd =>
        match class_names ≫= pdf_elements pd (timetable self) with
        | [] => (false, PdfNoValidData)
        | elements =>
            if render elements then (true, PdfGenerated) else (false, PdfError)
        end
    end.

(** ** [run] *)

(** [run]: the returned value and the generator it leaves, or [None] when
    an exception escapes ([print_timetable] is called outside any [try]). *)
Definition run (self : TimeTableGenerator)
    (rooms_file : file (option (list room_entry)))
    (subjects_file : file subjects_json)
    (Solve : CpModel → response) (render : list element → bool)
    (with_pdf : bool) : option (bool * TimeTableGenerator) :=
  let loaded := load_data self rooms_file subjects_file in
  if negb loaded.1 then Some (false, loaded.2) else
  let preprocessed := preprocess_data loaded.2 in
  if negb preprocessed.1 then Some (false, preprocessed.2) else
  let solved := create_model preprocessed.2 Solve in
  if negb (returned solved) then Some (false, self_after solved) else
  match print_timetable (self_after solved) with
  | None => None
  | Some _ =>
      if with_pdf
      then Some ((generate_pdf (self_after solved) render).1, self_after solved)
      else Some (true, self_after solved)
  end.

(** * Notions used to state the properties *)

(** ** The loops of [create_model] as lists *)

(** The keys in the order the nested loops of [create_variables] visit them. *)
Definition variable_keys (pd : processed) : list key :=
  class_name ← classes pd;
  course_code ← curriculum_of pd class_name;
  teacher ← teachers_for_course pd course_code;
  if bool_decide (Py.strip teacher = "") then [] else
  room ← rooms pd;
  day ← days pd;
  pw ← periods pd;
  [Key class_name course_code teacher room day pw.1].

(** What the loops require of a key to create a variable for it. *)
Record generated (pd : processed) (k : key) : Prop := {
  gen_class : k_class k ∈ classes pd;
  gen_course : k_course k ∈ curriculum_of pd (k_class k);
  gen_teacher : k_teacher k ∈ teachers_for_course pd (k_course k);
  gen_nonblank : Py.strip (k_teacher k) ≠ "";
  gen_room : k_room k ∈ rooms pd;
  gen_day : k_day k ∈ days pd;
  gen_period : k_period k ∈ (periods pd).*1
}.

(** Appending constraints to a model. *)
Definition emit (cs : list constraint) (m : CpModel) : CpModel :=
  {| num_vars := num_vars m; constraints := (constraints m ++ cs)%list;
     objective := objective m |}.

(** The constraint of a group: none when the group has no variable. *)
Definition guarded (c : list var → constraint) (vars : list var) : list constraint :=
  match vars with
  | [] => []
  | _ => [c vars]
  end.

Definition course_constraints (pd : processed) (a : assignments_dict) : list constraint :=
  class_name ← classes pd;
  course_code ← curriculum_of pd class_name;
  guarded ExactlyOne
    (vars_where (λ k, k_class k = class_name ∧ k_course k = course_code) a).

Definition class_constraints (pd : processed) (a : assignments_dict) : list constraint :=
  class_name ← classes pd;
  day ← days pd;
  pw ← periods pd;
  guarded AtMostOne
    (vars_where (λ k, k_class k = class_name ∧ k_day k = day ∧ k_period k = pw.1) a).

Definition room_constraints (pd : processed) (a : assignments_dict) : list constraint :=
  room ← rooms pd;
  day ← days pd;
  pw ← periods pd;
  guarded AtMostOne
    (vars_where (λ k, k_room k = room ∧ k_day k = day ∧ k_period k = pw.1) a).

Definition teacher_constraints (pd : processed) (a : assignments_dict) : list constraint :=
  teacher ← teachers pd;
  day ← days pd;
  pw ← periods pd;
  guarded AtMostOne
    (vars_where (λ k, k_teacher k = teacher ∧ k_day k = day ∧ k_period k = pw.1) a).

(** ** Solutions *)

(** The entries of the dict whose key satisfies [P] and whose variable is
    true in the solver's answer. *)
Definition true_vars (a : assignments_dict) (value : valuation)
    (P : key → Prop) `{∀ k, Decision (P k)} : list (key * var) :=
  filter (λ kv, P kv.1 ∧ value kv.2 = true) a.

(** ** Invariants of the loop of [preprocess_data] *)

(** The teachers of every recorded course are stripped, non-blank names of
    the teacher set. *)
Definition teachers_known (st : pre_state) : Prop :=
  ∀ code info t,
    pre_courses st !! code = Some info →
    t ∈ (lecturers info ++ assistants info)%list →
    Py.strip t ≠ "" ∧ t ∈ pre_teachers st.

(** The only exception the loop can raise: a code that is present, not
    empty, and does not end with a decimal digit. *)
Definition code_ok (s : subject) : Prop :=
  match subj_code s with
  | None => True
  | Some code => code = "" ∨ is_Some (Py.last_char code ≫= Py.int_of_char)
  end.

(** Every class of the loop has a course. *)
Definition curricula_nonempty (st : pre_state) : Prop :=
  ∀ c, c ∈ pre_classes st → ∃ l, pre_curriculum st !! c = Some l ∧ l ≠ [].

(** ** Scenarios *)

(** A subject record with a code, a level and a semester. *)
Definition taught (code niveau semestre : string) (l : names) : subject :=
  {| subj_code := Some code; subj_niveau := Some niveau;
     subj_semestre := Some semestre; subj_name := Some code;
     subj_lecturers := l; subj_assistants := NamesAbsent; subj_credit := None |}.

(** A subject record without the 'code' key. *)
Definition uncoded_subject : subject :=
  {| subj_code := None; subj_niveau := Some "1"; subj_semestre := Some "s1";
     subj_name := Some "Algorithmique"; subj_lecturers := NameStr "T";
     subj_assistants := NamesAbsent; subj_credit := None |}.

(** [self.days = ds; self.periods = ps] *)
Definition with_calendar (self : TimeTableGenerator) (ds : list string)
    (ps : list (string * Z)) : TimeTableGenerator :=
  {| rooms_data := rooms_data self; subjects_data := subjects_data self;
     processed_data := processed_data self; timetable := timetable self;
     self_days := ds; self_periods := ps |}.

(** The valuation that sets exactly the variables of [vs]. *)
Definition chosen (vs : list var) : valuation := λ v, bool_decide (v ∈ vs).

Definition answer (st : status) (vs : list var) : response :=
  {| status_of := st; Value := chosen vs |}.

(** One class with the courses C1 and C2, one teacher for both, one room,
    and the two Monday slots of weights 1 and 2. *)
Definition monday : TimeTableGenerator :=
  with_calendar
    (init [ {| num := Some "R1" |} ]
          [ taught "C1" "1" "s1" (NameStr "T"); taught "C2" "1" "s1" (NameStr "T") ])
    ["Lundi"] [("07:00-09:55", 1); ("10:05-12:55", 2)]%Z.

Definition monday_pd : processed :=
  {| classes := ["L1_s1"];
     courses :=
       {[ "C1" := {| name := "C1"; lecturers := ["T"]; assistants := []; credit := 0 |};
          "C2" := {| name := "C2"; lecturers := ["T"]; assistants := []; credit := 0 |} ]};
     teachers := ["T"];
     rooms := ["R1"];
     curriculum := {[ "L1_s1" := ["C1"; "C2"] ]};
     days := ["Lundi"];
     periods := [("07:00-09:55", 1); ("10:05-12:55", 2)]%Z |}.

(** The same with a single slot left. *)
Definition forced : TimeTableGenerator :=
  with_calendar monday ["Lundi"] [("07:00-09:55", 1)]%Z.

Definition forced_pd : processed :=
  {| classes := classes monday_pd; courses := courses monday_pd;
     teachers := teachers monday_pd; rooms := rooms monday_pd;
     curriculum := curriculum monday_pd;
     days := ["Lundi"]; periods := [("07:00-09:55", 1)]%Z |}.

(** Two classes with one course each, neither with a teacher, two rooms,
    and the calendar of [__init__]. *)
Definition two_unassigned : TimeTableGenerator :=
  init [ {| num := Some "R1" |}; {| num := Some "R2" |} ]
       [ taught "INF111" "1" "s1" NamesAbsent; taught "INF211" "2" "s1" NamesAbsent ].

Definition two_unassigned_pd : processed :=
  {| classes := ["L1_s1"; "L2_s1"];
     courses :=
       {[ "INF111" := {| name := "INF111"; lecturers := []; assistants := []; credit := 0 |};
          "INF211" := {| name := "INF211"; lecturers := []; assistants := []; credit := 0 |} ]};
     teachers := [];
     rooms := ["R1"; "R2"];
     curriculum := {[ "L1_s1" := ["INF111"]; "L2_s1" := ["INF211"] ]};
     days := self_days two_unassigned;
     periods := self_periods two_unassigned |}.

(** The same with a single slot left. *)
Definition one_slot : TimeTableGenerator :=
  with_calendar two_unassigned ["Lundi"] [("07:00-09:55", 1)]%Z.

Definition one_slot_pd : processed :=
  {| classes := classes two_unassigned_pd; courses := courses two_unassigned_pd;
     teachers := []; rooms := rooms two_unassigned_pd;
     curriculum := curriculum two_unassigned_pd;
     days := ["Lundi"]; periods := [("07:00-09:55", 1)]%Z |}.

(** A subject without code next to a course without teacher, one room. *)
Definition uncoded : TimeTableGenerator :=
  init [ {| num := Some "R1" |} ]
       [ uncoded_subject; taught "INF111" "1" "s1" NamesAbsent ].

Definition uncoded_pd : processed :=
  {| classes := ["L1_s1"];
     courses :=
       {[ "INF111" := {| name := "INF111"; lecturers := []; assistants := []; credit := 0 |} ]};
     teachers := [];
     rooms := ["R1"];
     curriculum := {[ "L1_s1" := ["INF111"] ]};
     days := self_days uncoded;
     periods := self_periods uncoded |}.

(** A course with a teacher and no room at all. *)
Definition no_rooms : TimeTableGenerator :=
  init [] [ taught "INF111" "1" "s1" (NameStr "T") ].

(** ** The loop body of [preprocess_data], per subject *)

(** What one iteration records for a subject: the class name, the code and
    the value stored in [courses]; [None] when the subject is skipped (no
    code) or the iteration raises. *)
Definition subject_entry (s : subject) : option (string * string * course_info) :=
  match subj_code s with
  | None => None
  | Some code =>
      if bool_decide (code = "") then None else
      match Py.last_char code ≫= Py.int_of_char with
      | None => None
      | Some d =>
          let level :=
            default (match Py.char_at 3 code with
                     | Some c => c
                     | None => "1"
                     end) (subj_niveau s) in
          let semester :=
            default (if bool_decide (d ≤ 5)%Z then "s1" else "s2") (subj_semestre s) in
          Some ("L" +:+ level +:+ "_" +:+ semester, code,
                {| name := default "Sans nom" (subj_name s);
                   lecturers := valid_names (names_list (subj_lecturers s));
                   assistants := valid_names (names_list (subj_assistants s));
                   credit := default 0%Z (subj_credit s) |})
      end
  end.

(** The update of the locals for an entry. *)
Definition record_entry (e : string * string * course_info) (st : pre_state)
    : pre_state :=
  {| pre_classes := pre_classes st ∪ {[ e.1.1 ]};
     pre_curriculum :=
       <[ e.1.1 := (default [] (pre_curriculum st !! e.1.1) ++ [e.1.2])%list ]>
         (pre_curriculum st);
     pre_courses := <[ e.1.2 := e.2 ]> (pre_courses st);
     pre_teachers :=
       pre_teachers st ∪ list_to_set (lecturers e.2) ∪ list_to_set (assistants e.2) |}.

(** The entries of the subjects that are not skipped, in order. *)
Definition subject_entries (subjects : list subject)
    : list (string * string * course_info) :=
  omap subject_entry subjects.

(** ** Scenarios of the further properties *)

(** The course INF111 listed twice, under two levels, with different
    lecturers. *)
Definition listed_twice : TimeTableGenerator :=
  init [ {| num := Some "R1" |} ]
       [ taught "INF111" "1" "s1" (NameList [Some " A "; Some "  "; None]);
         taught "INF111" "2" "s1" (NameStr "B") ].

Definition listed_twice_pd : processed :=
  {| classes := ["L1_s1"; "L2_s1"];
     courses :=
       {[ "INF111" := {| name := "INF111"; lecturers := ["B"]; assistants := [];
                         credit := 0 |} ]};
     teachers := ["A"; "B"];
     rooms := ["R1"];
     curriculum := {[ "L1_s1" := ["INF111"]; "L2_s1" := ["INF111"] ]};
     days := self_days listed_twice;
     periods := self_periods listed_twice |}.

(** A solver that puts C1 in the first Monday slot and C2 in the second. *)
Definition monday_solver : CpModel → response := λ _, answer FEASIBLE [0; 3]%nat.

(** The Monday scenario as files: a generator with the two-slot calendar
    and no data yet, the rooms file, and the subjects file, whose records
    carry a level and a semester of their own. *)
Definition monday_blank : TimeTableGenerator :=
  with_calendar (init [] []) ["Lundi"] [("07:00-09:55", 1); ("10:05-12:55", 2)]%Z.

Definition monday_rooms_file : file (option (list room_entry)) :=
  Content (Some [ {| num := Some "R1" |} ]).

Definition monday_json : subjects_json :=
  {| json_niveau :=
       Some [("1", [("s1", {| sem_subjects :=
                                Some [ taught "C1" "3" "s2" (NameStr "T");
                                       taught "C2" "1" "s1" (NameStr "T") ] |})])] |}.

(** * Properties *)

(** ** Loops *)

Section for_lemmas.
Context {A S : Type}.
Implicit Types (xs : list A) (st : S).

Lemma for_nil (body : A → S → S) st : Py.for_ [] body st = st.
Proof. reflexivity. Qed.

Lemma for_cons x xs (body : A → S → S) st :
  Py.for_ (x :: xs) body st = Py.for_ xs body (body x st).
Proof. reflexivity. Qed.

Lemma for_app xs ys (body : A → S → S) st :
  Py.for_ (xs ++ ys)%list body st = Py.for_ ys body (Py.for_ xs body st).
Proof. unfold Py.for_. apply foldl_app. Qed.

Lemma for_snoc xs x (body : A → S → S) st :
  Py.for_ (xs ++ [x])%list body st = body x (Py.for_ xs body st).
Proof. rewrite for_app. reflexivity. Qed.

Lemma for_ext xs (body1 body2 : A → S → S) st :
  (∀ x st', x ∈ xs → body1 x st' = body2 x st') →
  Py.for_ xs body1 st = Py.for_ xs body2 st.
Proof.
  revert st. induction xs as [|x xs IH]; intros st Hext; [done|].
  rewrite !for_cons, Hext by left. apply IH.
  intros y st' Hy. apply Hext. by right.
Qed.

Lemma for_id xs st : Py.for_ xs (λ _, id) st = st.
Proof. induction xs; [done|]. by rewrite for_cons. Qed.
End for_lemmas.

(** A loop over a comprehension is the nest of the loops. *)
Lemma for_bind {A B S : Type} (ys : list B) (f : B → list A) (body : A → S → S) st :
  Py.for_ (ys ≫= f) body st = Py.for_ ys (λ y, Py.for_ (f y) body) st.
Proof.
  revert st. induction ys as [|y ys IH]; intros st; [done|].
  rewrite bind_cons, for_app, for_cons. apply IH.
Qed.

(** ** [strip] *)

Lemma drop_first_length ws l l' :
  Forall (λ w, w ≠ []) ws → Py.drop_first ws l = Some l' →
  (length l' < length l)%nat.
Proof.
  unfold Py.drop_first. intros Hws.
  destruct (filter _ ws) as [|w r] eqn:Hf; [done|]. intros [= <-].
  assert (w ∈ filter (λ w, w `prefix_of` l) ws) as Hw by (rewrite Hf; left).
  apply list_elem_of_filter in Hw as [[k ->] Hw].
  rewrite Forall_forall in Hws. specialize (Hws _ Hw).
  rewrite drop_app_length, length_app. destruct w; [done|]. simpl. lia.
Qed.

Lemma drop_first_suffix ws l l' :
  Py.drop_first ws l = Some l' → ∃ p, l = (p ++ l')%list.
Proof.
  unfold Py.drop_first. destruct (filter _ ws) as [|w r]; [done|].
  intros [= <-]. exists (take (length w) l). by rewrite take_drop.
Qed.

Lemma drop_all_clean ws n l :
  Forall (λ w, w ≠ []) ws → (length l ≤ n)%nat →
  Py.drop_first ws (Py.drop_all ws n l) = None.
Proof.
  intros Hws. revert l. induction n as [|n IH]; intros l Hn; simpl.
  - destruct l; [|simpl in Hn; lia]. unfold Py.drop_first.
    destruct (filter _ ws) as [|w r] eqn:Hf; [done|].
    assert (w ∈ filter (λ w, w `prefix_of` []) ws) as Hw by (rewrite Hf; left).
    apply list_elem_of_filter in Hw as [Hp Hw].
    rewrite Forall_forall in Hws. specialize (Hws _ Hw).
    apply prefix_nil_inv in Hp. done.
  - destruct (Py.drop_first ws l) as [l'|] eqn:Hd; [|done].
    apply IH. pose proof (drop_first_length _ _ _ Hws Hd). lia.
Qed.

Lemma drop_all_id ws n l :
  Py.drop_first ws l = None → Py.drop_all ws n l = l.
Proof. intros Hd. destruct n; simpl; [done|]. by rewrite Hd. Qed.

Lemma drop_all_suffix ws n l : ∃ p, l = (p ++ Py.drop_all ws n l)%list.
Proof.
  revert l. induction n as [|n IH]; intros l; simpl; [by exists []|].
  destruct (Py.drop_first ws l) as [l'|] eqn:Hd; [|by exists []].
  destruct (drop_first_suffix _ _ _ Hd) as [p ->].
  destruct (IH l') as [q Hq]. exists (p ++ q)%list. by rewrite <-(assoc_L _), <-Hq.
Qed.

Lemma drop_first_prefix ws l q :
  Py.drop_first ws (l ++ q)%list = None → Py.drop_first ws l = None.
Proof.
  unfold Py.drop_first.
  destruct (filter _ ws) as [|w r] eqn:Hf; [|done]. intros _.
  destruct (filter (λ w, w `prefix_of` l) ws) as [|w r] eqn:Hg; [done|].
  assert (w ∈ filter (λ w, w `prefix_of` l) ws) as Hw by (rewrite Hg; left).
  apply list_elem_of_filter in Hw as [Hp Hw].
  assert (w ∈ filter (λ w, w `prefix_of` (l ++ q)%list) ws) as Hw'.
  { apply list_elem_of_filter. split; [|done]. by apply prefix_app_r. }
  rewrite Hf in Hw'. by apply elem_of_nil in Hw'.
Qed.

Lemma space_bytes_nonempty : Forall (λ w, w ≠ []) Py.space_bytes.
Proof. by repeat constructor. Qed.

Lemma space_bytes_rev_nonempty :
  Forall (λ w, w ≠ []) (reverse <$> Py.space_bytes).
Proof. by repeat constructor. Qed.

Lemma lstrip_bytes_clean l :
  Py.drop_first Py.space_bytes (Py.lstrip_bytes l) = None.
Proof. apply drop_all_clean; [apply space_bytes_nonempty|done]. Qed.

Lemma strip_bytes_idemp l :
  let r := Py.rstrip_bytes (Py.lstrip_bytes l) in
  Py.rstrip_bytes (Py.lstrip_bytes r) = r.
Proof.
  intros r. set (x := Py.lstrip_bytes l) in *.
  set (y := Py.drop_all (reverse <$> Py.space_bytes) (length x) (reverse x)).
  assert (r = reverse y) as Hr by done.
  destruct (drop_all_suffix (reverse <$> Py.space_bytes) (length x) (reverse x))
    as [p Hp]. fold y in Hp.
  assert (x = (r ++ reverse p)%list) as Hx.
  { rewrite Hr, <-reverse_app, <-Hp. by rewrite reverse_involutive. }
  assert (Py.lstrip_bytes r = r) as Hl.
  { apply drop_all_id. apply drop_first_prefix with (reverse p).
    rewrite <-Hx. apply lstrip_bytes_clean. }
  rewrite Hl. unfold Py.rstrip_bytes. rewrite Hr at 2.
  rewrite reverse_involutive, drop_all_id; [by rewrite Hr|].
  apply drop_all_clean; [apply space_bytes_rev_nonempty|].
  by rewrite length_reverse.
Qed.

Lemma strip_idemp s : Py.strip (Py.strip s) = Py.strip s.
Proof.
  unfold Py.strip. rewrite String.list_ascii_of_string_of_list_ascii.
  f_equal. apply strip_bytes_idemp.
Qed.

(** A name that survived [strip] is not blank. *)
Lemma strip_strip_nonblank s : Py.strip s ≠ "" → Py.strip (Py.strip s) ≠ "".
Proof. by rewrite strip_idemp. Qed.

(** White space and digits outside ASCII: a no-break space and an
    ideographic space are stripped, an Arabic-Indic three is a digit, a
    superscript two is not, and indexing counts characters. *)
Example unicode_characters :
  Py.strip "  Dr. A	 " = "Dr. A"
  ∧ Py.strip (Py.utf8 0xA0 +:+ "x y" +:+ Py.utf8 0x3000 +:+ " ") = "x y"
  ∧ Py.strip (" " +:+ Py.utf8 0x2003) = ""
  ∧ Py.last_char ("L" +:+ Py.utf8 0x663) = Some (Py.utf8 0x663)
  ∧ (Py.last_char ("L" +:+ Py.utf8 0x663) ≫= Py.int_of_char) = Some 3%Z
  ∧ Py.char_at 3 (Py.utf8 0xC9 +:+ "C12") = Some "2"
  ∧ Py.int_of_char "7" = Some 7%Z
  ∧ Py.int_of_char "x" = None
  ∧ Py.int_of_char (Py.utf8 0xB2) = None.
Proof. vm_compute. repeat split. Qed.

(** ** The [assignments] dict *)

Section dict_lemmas.
Context {K V : Type} `{EqDecision K}.
Implicit Types (d : list (K * V)).

Lemma dict_set_elem d k v kv :
  kv ∈ Py.dict_set d k v → kv ∈ d ∨ kv = (k, v).
Proof.
  induction d as [|[k' v'] d IH]; simpl.
  - intros ->%list_elem_of_singleton. by right.
  - case_decide; subst; intros [->|Hin]%elem_of_cons; auto.
    + left. by right.
    + left. by left.
    + destruct (IH Hin); auto. left. by right.
Qed.

Lemma dict_set_lookup d k v : ∃ v', (k, v') ∈ Py.dict_set d k v.
Proof.
  induction d as [|[k' v'] d [w IH]]; simpl.
  - exists v. by left.
  - case_decide; subst; [exists v; by left|]. exists w. by right.
Qed.

Lemma dict_set_keep d k v k' :
  k' ∈ d.*1 → k' ∈ (Py.dict_set d k v).*1.
Proof.
  induction d as [|[k0 v0] d IH]; simpl; [by intros ?%elem_of_nil|].
  case_decide; subst; simpl; intros [->|Hin]%elem_of_cons;
    try (by left); right; auto.
Qed.
End dict_lemmas.

(** ** The variable space *)

Lemma create_variables_flat pd st :
  create_variables pd st = Py.for_ (variable_keys pd) new_assignment st.
Proof.
  unfold create_variables, variable_keys.
  rewrite for_bind. apply for_ext; intros class_name st1 _.
  rewrite for_bind. apply for_ext; intros course_code st2 _.
  rewrite for_bind. apply for_ext; intros teacher st3 _.
  case_bool_decide; [done|].
  rewrite for_bind. apply for_ext; intros room st4 _.
  rewrite for_bind. apply for_ext; intros day st5 _.
  rewrite for_bind. apply for_ext; intros pw st6 _.
  reflexivity.
Qed.

Lemma elem_of_variable_keys pd k : k ∈ variable_keys pd ↔ generated pd k.
Proof.
  unfold variable_keys. split.
  - intros (c & Hk & Hc)%list_elem_of_bind.
    apply list_elem_of_bind in Hk as (co & Hk & Hco).
    apply list_elem_of_bind in Hk as (t & Hk & Ht).
    case_bool_decide as Hblank; [by apply elem_of_nil in Hk|].
    apply list_elem_of_bind in Hk as (r & Hk & Hr).
    apply list_elem_of_bind in Hk as (d & Hk & Hd).
    apply list_elem_of_bind in Hk as (pw & Hk & Hpw).
    apply list_elem_of_singleton in Hk as ->.
    split; simpl; try done. apply list_elem_of_fmap. by exists pw.
  - intros [Hc Hco Ht Hblank Hr Hd Hp]. destruct k as [c co t r d p]; simpl in *.
    apply list_elem_of_fmap in Hp as (pw & -> & Hpw).
    apply list_elem_of_bind. exists c. split; [|done].
    apply list_elem_of_bind. exists co. split; [|done].
    apply list_elem_of_bind. exists t. split; [|done].
    rewrite bool_decide_eq_false_2 by done.
    apply list_elem_of_bind. exists r. split; [|done].
    apply list_elem_of_bind. exists d. split; [|done].
    apply list_elem_of_bind. exists pw. split; [|done].
    by apply list_elem_of_singleton.
Qed.

Lemma dict_set_keys {V : Type} (d : list (key * V)) k v k' :
  k' ∈ (Py.dict_set d k v).*1 ↔ k' ∈ d.*1 ∨ k' = k.
Proof.
  split.
  - intros ([k0 v0] & -> & Hin)%list_elem_of_fmap.
    apply dict_set_elem in Hin as [Hin | [= -> ->]]; [|by right].
    left. apply list_elem_of_fmap. by exists (k0, v0).
  - intros [Hin | ->]; [by apply dict_set_keep|].
    destruct (dict_set_lookup d k v) as [v' Hv'].
    apply list_elem_of_fmap. by exists (k, v').
Qed.

Lemma new_assignment_eq k m a :
  new_assignment k (m, a)
  = ({| num_vars := S (num_vars m); constraints := constraints m;
        objective := objective m |}, Py.dict_set a k (num_vars m)).
Proof. reflexivity. Qed.

(** The loop creates one fresh variable per key visited and touches neither
    the constraints nor the objective. *)
Lemma new_assignments_spec ks m a :
  let st := Py.for_ ks new_assignment (m, a) in
  num_vars st.1 = (num_vars m + length ks)%nat
  ∧ constraints st.1 = constraints m
  ∧ objective st.1 = objective m
  ∧ (∀ k, k ∈ st.2.*1 ↔ k ∈ a.*1 ∨ k ∈ ks)
  ∧ (∀ kv, kv ∈ st.2 → kv ∈ a ∨ (kv.2 < num_vars m + length ks)%nat).
Proof.
  revert m a. induction ks as [|k ks IH]; intros m a; cbv zeta.
  - simpl. split_and!; [lia|done|done| |by left].
    intros k. split; [by left|]. by intros [?|?%elem_of_nil].
  - rewrite for_cons, new_assignment_eq.
    destruct (IH {| num_vars := S (num_vars m); constraints := constraints m;
                   objective := objective m |} (Py.dict_set a k (num_vars m)))
      as (Hn & Hc & Ho & Hk & Hv).
    rewrite Hn, Hc, Ho. simpl in *. split_and!; [lia|done|done| |].
    + intros k'. rewrite Hk, dict_set_keys, elem_of_cons. tauto.
    + intros kv Hin. apply Hv in Hin as [Hin|Hin]; [|right; lia].
      apply dict_set_elem in Hin as [Hin| ->]; [by left|right; simpl; lia].
Qed.

(** ** The constraints *)

Lemma emit_nil m : emit [] m = m.
Proof. destruct m. unfold emit; simpl. by rewrite app_nil_r. Qed.

Lemma emit_emit cs1 cs2 m : emit cs2 (emit cs1 m) = emit (cs1 ++ cs2)%list m.
Proof. unfold emit; simpl. by rewrite app_assoc. Qed.

Lemma guarded_exactly_one vars m :
  match vars with [] => id | _ => AddExactlyOne vars end m
  = emit (guarded ExactlyOne vars) m.
Proof. destruct vars; [by rewrite emit_nil|done]. Qed.

Lemma guarded_at_most_one vars m :
  match vars with [] => id | _ => AddAtMostOne vars end m
  = emit (guarded AtMostOne vars) m.
Proof. destruct vars; [by rewrite emit_nil|done]. Qed.

Lemma for_emit {A : Type} (xs : list A) (gen : A → list constraint) m :
  Py.for_ xs (λ x, emit (gen x)) m = emit (xs ≫= gen) m.
Proof.
  revert m. induction xs as [|x xs IH]; intros m; [by rewrite emit_nil|].
  by rewrite for_cons, IH, emit_emit.
Qed.

Lemma add_course_constraints_emit pd a m :
  add_course_constraints pd a m = emit (course_constraints pd a) m.
Proof.
  unfold add_course_constraints, course_constraints.
  rewrite <- for_emit. apply for_ext; intros class_name m1 _.
  rewrite <- for_emit. apply for_ext; intros course_code m2 _.
  apply guarded_exactly_one.
Qed.

Lemma add_class_constraints_emit pd a m :
  add_class_constraints pd a m = emit (class_constraints pd a) m.
Proof.
  unfold add_class_constraints, class_constraints.
  rewrite <- for_emit. apply for_ext; intros class_name m1 _.
  rewrite <- for_emit. apply for_ext; intros day m2 _.
  rewrite <- for_emit. apply for_ext; intros pw m3 _.
  apply guarded_at_most_one.
Qed.

Lemma add_room_constraints_emit pd a m :
  add_room_constraints pd a m = emit (room_constraints pd a) m.
Proof.
  unfold add_room_constraints, room_constraints.
  rewrite <- for_emit. apply for_ext; intros room m1 _.
  rewrite <- for_emit. apply for_ext; intros day m2 _.
  rewrite <- for_emit. apply for_ext; intros pw m3 _.
  apply guarded_at_most_one.
Qed.

Lemma add_teacher_constraints_emit pd a m :
  add_teacher_constraints pd a m = emit (teacher_constraints pd a) m.
Proof.
  unfold add_teacher_constraints, teacher_constraints.
  rewrite <- for_emit. apply for_ext; intros teacher m1 _.
  rewrite <- for_emit. apply for_ext; intros day m2 _.
  rewrite <- for_emit. apply for_ext; intros pw m3 _.
  apply guarded_at_most_one.
Qed.

(** ** The model built by [create_model] *)

Lemma build_spec pd :
  let st := Py.for_ (variable_keys pd) new_assignment (CpModel_new, []) in
  build pd
  = (emit (course_constraints pd st.2 ++ class_constraints pd st.2
           ++ room_constraints pd st.2 ++ teacher_constraints pd st.2)%list st.1,
     st.2).
Proof.
  unfold build. rewrite create_variables_flat.
  destruct (Py.for_ _ _ _) as [m a]; simpl.
  by rewrite add_course_constraints_emit, add_class_constraints_emit,
    add_room_constraints_emit, add_teacher_constraints_emit, !emit_emit.
Qed.

Lemma assignments_of_keys pd k : k ∈ (assignments_of pd).*1 ↔ generated pd k.
Proof.
  unfold assignments_of. rewrite build_spec; simpl.
  destruct (new_assignments_spec (variable_keys pd) CpModel_new [])
    as (_ & _ & _ & Hk & _).
  rewrite Hk, elem_of_variable_keys. split; [|by right].
  by intros [?%elem_of_nil|?].
Qed.

Lemma assignments_of_generated pd kv : kv ∈ assignments_of pd → generated pd kv.1.
Proof.
  intros Hin. apply assignments_of_keys, list_elem_of_fmap. by exists kv.
Qed.

Lemma constraints_model_of pd :
  constraints (model_of pd)
  = (course_constraints pd (assignments_of pd)
     ++ class_constraints pd (assignments_of pd)
     ++ room_constraints pd (assignments_of pd)
     ++ teacher_constraints pd (assignments_of pd))%list.
Proof.
  unfold model_of, assignments_of. rewrite build_spec; simpl.
  destruct (new_assignments_spec (variable_keys pd) CpModel_new [])
    as (_ & -> & _). done.
Qed.

Lemma objective_model_of pd :
  objective (model_of pd) = objective_terms pd (assignments_of pd).
Proof. reflexivity. Qed.

Lemma num_vars_model_of pd : num_vars (model_of pd) = length (variable_keys pd).
Proof.
  unfold model_of. rewrite build_spec; simpl.
  by destruct (new_assignments_spec (variable_keys pd) CpModel_new [])
    as (-> & _).
Qed.

Lemma assignments_of_bound pd kv :
  kv ∈ assignments_of pd → (kv.2 < num_vars (model_of pd))%nat.
Proof.
  rewrite num_vars_model_of. unfold assignments_of. rewrite build_spec; simpl.
  destruct (new_assignments_spec (variable_keys pd) CpModel_new [])
    as (_ & _ & _ & _ & Hv).
  intros Hin. by destruct (Hv _ Hin) as [?%elem_of_nil|?].
Qed.

(** [create_model] in terms of [model_of] and [assignments_of]. *)
Lemma create_model_unfold self Solve pd :
  processed_data self = Some pd →
  classes pd ≠ [] →
  create_model self Solve =
    match assignments_of pd with
    | [] => {| returned := false; printed := [MsgCreating; MsgNoVariables];
               self_after := self |}
    | _ =>
        let r := Solve (model_of pd) in
        match status_of r with
        | OPTIMAL | FEASIBLE =>
            {| returned := true;
               printed := [MsgCreating; MsgSolving;
                           MsgSolution (bool_decide (status_of r = OPTIMAL))
                                       (objective_value (model_of pd) (Value r))];
               self_after :=
                 with_timetable self
                   (extract_timetable pd (assignments_of pd) (Value r)) |}
        | st => {| returned := false;
                   printed := [MsgCreating; MsgSolving; MsgNoSolution st];
                   self_after := self |}
        end
    end.
Proof.
  intros Hpd Hcl. unfold create_model, model_of, assignments_of. rewrite Hpd.
  destruct (classes pd); [done|].
  destruct (build pd) as [m a]; simpl. by destruct a.
Qed.

(** ** What a feasible valuation satisfies *)

Lemma count_true_vars_where value (P : key → Prop) `{∀ k, Decision (P k)} a :
  count_true value (vars_where P a) = length (true_vars a value P).
Proof.
  unfold count_true, vars_where, true_vars.
  induction a as [|[k v] a IH]; [done|].
  rewrite !filter_cons; simpl.
  destruct (decide (P k)) as [HP|HP]; simpl.
  - rewrite filter_cons; simpl.
    destruct (decide (value v = true)) as [Hv|Hv].
    + rewrite decide_True by done. simpl. f_equal. exact IH.
    + rewrite decide_False by tauto. exact IH.
  - rewrite decide_False by tauto. exact IH.
Qed.

Lemma vars_where_nonempty (P : key → Prop) `{∀ k, Decision (P k)} a :
  vars_where P a ≠ [] ↔ ∃ kv, kv ∈ a ∧ P kv.1.
Proof.
  unfold vars_where. split.
  - destruct (filter _ a) as [|kv l] eqn:Hf; [done|]. intros _.
    assert (kv ∈ filter (λ kv, P kv.1) a) as Hin by (rewrite Hf; left).
    apply list_elem_of_filter in Hin. exists kv. tauto.
  - intros (kv & Hin & HP) Hnil.
    assert (kv ∈ filter (λ kv, P kv.1) a) as Hf by (by apply list_elem_of_filter).
    apply (list_elem_of_fmap_2 snd) in Hf. rewrite Hnil in Hf.
    by apply elem_of_nil in Hf.
Qed.

Lemma guarded_in (c : list var → constraint) vars :
  vars ≠ [] → c vars ∈ guarded c vars.
Proof. destruct vars; [done|]. intros _. by left. Qed.

Lemma guarded_elem (c : list var → constraint) vars x :
  x ∈ guarded c vars → x = c vars.
Proof. destruct vars; [by intros ?%elem_of_nil|]. by intros ?%list_elem_of_singleton. Qed.

Section feasible_model.
Context (pd : processed) (value : valuation).
Hypothesis Hfeasible : feasible (model_of pd) value.

Lemma feasible_holds c : c ∈ constraints (model_of pd) → holds value c.
Proof.
  intros Hc. unfold feasible in Hfeasible.
  by apply (proj1 (Forall_forall _ _) Hfeasible).
Qed.

(** Family 1: a (class, course) pair of the curriculum that has a variable
    has exactly one true variable. *)
Lemma course_group_exactly_one class_name course_code :
  class_name ∈ classes pd →
  course_code ∈ curriculum_of pd class_name →
  (∃ kv, kv ∈ assignments_of pd
         ∧ k_class kv.1 = class_name ∧ k_course kv.1 = course_code) →
  length (true_vars (assignments_of pd) value
            (λ k, k_class k = class_name ∧ k_course k = course_code)) = 1%nat.
Proof.
  intros Hc Hco Hex. rewrite <- count_true_vars_where.
  apply (feasible_holds (ExactlyOne _)).
  rewrite constraints_model_of. apply elem_of_app; left.
  apply list_elem_of_bind. exists class_name. split; [|done].
  apply list_elem_of_bind. exists course_code. split; [|done].
  apply guarded_in, vars_where_nonempty. done.
Qed.

(** A group without variable has no true variable. *)
Lemma empty_group (P : key → Prop) `{∀ k, Decision (P k)} :
  vars_where P (assignments_of pd) = [] →
  length (true_vars (assignments_of pd) value P) = 0%nat.
Proof. intros Hnil. by rewrite <- count_true_vars_where, Hnil. Qed.

(** Family 2: at most one true variable per (class, day, period). *)
Lemma class_group_at_most_one class_name day period :
  (length (true_vars (assignments_of pd) value
             (λ k, k_class k = class_name ∧ k_day k = day ∧ k_period k = period))
   ≤ 1)%nat.
Proof.
  destruct (decide (vars_where
    (λ k, k_class k = class_name ∧ k_day k = day ∧ k_period k = period)
    (assignments_of pd) = []))
    as [Hnil|Hne]; [rewrite empty_group by done; lia|].
  pose proof Hne as (kv & Hin & Hc & Hd & Hp)%vars_where_nonempty.
  destruct (assignments_of_generated _ _ Hin) as [Gc _ _ _ _ Gd Gp].
  apply list_elem_of_fmap in Gp as (pw & Hpw & Gp).
  rewrite <- count_true_vars_where.
  apply (feasible_holds (AtMostOne _)).
  rewrite constraints_model_of. apply elem_of_app; right. apply elem_of_app; left.
  apply list_elem_of_bind. exists class_name. split; [|by rewrite <- Hc].
  apply list_elem_of_bind. exists day. split; [|by rewrite <- Hd].
  apply list_elem_of_bind. exists pw. split; [|done].
  rewrite <- Hpw, Hp. by apply guarded_in.
Qed.

(** Family 3: at most one true variable per (room, day, period). *)
Lemma room_group_at_most_one room day period :
  (length (true_vars (assignments_of pd) value
             (λ k, k_room k = room ∧ k_day k = day ∧ k_period k = period))
   ≤ 1)%nat.
Proof.
  destruct (decide (vars_where
    (λ k, k_room k = room ∧ k_day k = day ∧ k_period k = period)
    (assignments_of pd) = []))
    as [Hnil|Hne]; [rewrite empty_group by done; lia|].
  pose proof Hne as (kv & Hin & Hr & Hd & Hp)%vars_where_nonempty.
  destruct (assignments_of_generated _ _ Hin) as [_ _ _ _ Gr Gd Gp].
  apply list_elem_of_fmap in Gp as (pw & Hpw & Gp).
  rewrite <- count_true_vars_where.
  apply (feasible_holds (AtMostOne _)).
  rewrite constraints_model_of. do 2 (apply elem_of_app; right).
  apply elem_of_app; left.
  apply list_elem_of_bind. exists room. split; [|by rewrite <- Hr].
  apply list_elem_of_bind. exists day. split; [|by rewrite <- Hd].
  apply list_elem_of_bind. exists pw. split; [|done].
  rewrite <- Hpw, Hp. by apply guarded_in.
Qed.

(** Family 4: at most one true variable per (teacher, day, period), for a
    teacher of [processed_data['teachers']]. *)
Lemma teacher_group_at_most_one teacher day period :
  teacher ∈ teachers pd →
  (length (true_vars (assignments_of pd) value
             (λ k, k_teacher k = teacher ∧ k_day k = day ∧ k_period k = period))
   ≤ 1)%nat.
Proof.
  intros Ht.
  destruct (decide (vars_where
    (λ k, k_teacher k = teacher ∧ k_day k = day ∧ k_period k = period)
    (assignments_of pd) = []))
    as [Hnil|Hne]; [rewrite empty_group by done; lia|].
  pose proof Hne as (kv & Hin & _ & Hd & Hp)%vars_where_nonempty.
  destruct (assignments_of_generated _ _ Hin) as [_ _ _ _ _ Gd Gp].
  apply list_elem_of_fmap in Gp as (pw & Hpw & Gp).
  rewrite <- count_true_vars_where.
  apply (feasible_holds (AtMostOne _)).
  rewrite constraints_model_of. do 3 (apply elem_of_app; right).
  apply list_elem_of_bind. exists teacher. split; [|done].
  apply list_elem_of_bind. exists day. split; [|by rewrite <- Hd].
  apply list_elem_of_bind. exists pw. split; [|done].
  rewrite <- Hpw, Hp. by apply guarded_in.
Qed.
End feasible_model.

(** An [OPTIMAL] or [FEASIBLE] answer satisfies every constraint. *)
Lemma solution_feasible m r :
  answers m r → status_of r = OPTIMAL ∨ status_of r = FEASIBLE →
  feasible m (Value r).
Proof. unfold answers. intros Ha [Hs|Hs]; rewrite Hs in Ha; tauto. Qed.

(** ** What [preprocess_data] establishes *)

Lemma try_for_ind {A S : Type} (P : S → Prop) (xs : list A)
    (body : A → S → option S) st st' :
  P st →
  (∀ x s s', x ∈ xs → body x s = Some s' → P s → P s') →
  try_for xs body st = Some st' → P st'.
Proof.
  revert st. induction xs as [|x xs IH]; intros st HP Hstep; simpl.
  - by intros [= <-].
  - destruct (body x st) as [s1|] eqn:Hb; [|done].
    apply IH; [eapply Hstep; [by left|done|done]|].
    intros y s s' Hy. apply Hstep. by right.
Qed.

Lemma elem_of_sorted (s : gset string) x : x ∈ Py.sorted s ↔ x ∈ s.
Proof. unfold Py.sorted. by rewrite merge_sort_Permutation, elem_of_elements. Qed.

Lemma valid_names_nonblank ls t : t ∈ valid_names ls → Py.strip t ≠ "".
Proof.
  unfold valid_names. intros (l & _ & Hl)%list_elem_of_omap.
  destruct l as [s|]; [|done].
  destruct (bool_decide (s ≠ "")); simpl in Hl; [|done].
  case_bool_decide as Hs; simpl in Hl; [|done].
  injection Hl as <-. by apply strip_strip_nonblank.
Qed.

Lemma preprocess_subject_known s st st' :
  preprocess_subject s st = Some st' → teachers_known st → teachers_known st'.
Proof.
  unfold preprocess_subject. destruct (subj_code s) as [code|]; [|by intros [= <-]].
  case_bool_decide; [by intros [= <-]|].
  destruct (Py.last_char code ≫= Py.int_of_char) as [d|]; [|done].
  intros [= <-] Hst code' info t; simpl.
  rewrite lookup_insert. case_decide as Hcode.
  - intros [= <-]; simpl. intros [Ht|Ht]%elem_of_app.
    + split; [by eapply valid_names_nonblank|]. set_solver.
    + split; [by eapply valid_names_nonblank|]. set_solver.
  - intros Hinfo Ht. destruct (Hst _ _ _ Hinfo Ht) as [Hb Hin].
    split; [done|]. do 2 (apply elem_of_union; left). done.
Qed.

Lemma preprocess_spec self pd :
  preprocess self = Some pd →
  days pd = self_days self
  ∧ periods pd = self_periods self
  ∧ rooms pd = omap num (rooms_data self)
  ∧ ∀ code info t,
      courses pd !! code = Some info →
      t ∈ (lecturers info ++ assistants info)%list →
      Py.strip t ≠ "" ∧ t ∈ teachers pd.
Proof.
  unfold preprocess.
  destruct (try_for _ _ _) as [st|] eqn:Hloop; [|done].
  intros [= <-]; simpl. split_and!; try done.
  intros code info t Hinfo Ht.
  assert (teachers_known st) as Hk.
  { eapply (try_for_ind teachers_known); [|by eauto using preprocess_subject_known|done].
    intros ? ? ? Hempty. done. }
  destruct (Hk _ _ _ Hinfo Ht). split; [done|]. by apply elem_of_sorted.
Qed.

Lemma unassigned_nonblank : Py.strip unassigned ≠ "".
Proof. by vm_compute. Qed.

(** After preprocessing, a teacher that the loops pair with a course is not
    blank, and is a teacher of the teacher list or the stand-in. *)
Lemma teachers_for_course_elem self pd course_code t :
  preprocess self = Some pd →
  t ∈ teachers_for_course pd course_code →
  Py.strip t ≠ "" ∧ (t ∈ teachers pd ∨ t = unassigned).
Proof.
  intros (_ & _ & _ & Hk)%preprocess_spec. unfold teachers_for_course.
  destruct (courses pd !! course_code) as [info|] eqn:Hinfo; simpl.
  - destruct (lecturers info ++ assistants info)%list as [|t0 l] eqn:Hl.
    + intros ->%list_elem_of_singleton. split; [apply unassigned_nonblank|by right].
    + intros Ht. rewrite <- Hl in Ht. destruct (Hk _ _ _ Hinfo Ht). auto.
  - intros ->%list_elem_of_singleton. split; [apply unassigned_nonblank|by right].
Qed.

(** ** The model validates *)

Lemma vars_where_bound pd (P : key → Prop) `{∀ k, Decision (P k)} :
  Forall (λ x, (x < num_vars (model_of pd))%nat) (vars_where P (assignments_of pd)).
Proof.
  apply Forall_forall. intros x (kv & -> & Hin)%list_elem_of_fmap.
  apply list_elem_of_filter in Hin as [_ Hin]. by apply assignments_of_bound.
Qed.

Lemma guarded_bound pd (c : list var → constraint) (P : key → Prop)
    `{∀ k, Decision (P k)} x :
  (∀ l, lits_of (c l) = l) →
  x ∈ guarded c (vars_where P (assignments_of pd)) →
  Forall (λ v, (v < num_vars (model_of pd))%nat) (lits_of x).
Proof. intros Hc ->%guarded_elem. rewrite Hc. apply vars_where_bound. Qed.

Lemma model_of_valid pd : valid (model_of pd).
Proof.
  split.
  - apply Forall_forall. intros c. rewrite constraints_model_of.
    unfold course_constraints, class_constraints, room_constraints,
      teacher_constraints.
    rewrite !elem_of_app. intros [Hc|[Hc|[Hc|Hc]]];
      repeat (apply list_elem_of_bind in Hc as (? & Hc & _));
      by eapply guarded_bound in Hc.
  - apply Forall_forall. intros t (kv & -> & Hin)%list_elem_of_fmap.
    by apply assignments_of_bound.
Qed.

(** So a solver that honours its contract never answers [MODEL_INVALID]. *)
Lemma never_model_invalid pd r :
  answers (model_of pd) r → status_of r ≠ MODEL_INVALID.
Proof.
  unfold answers. intros Ha Hs. rewrite Hs in Ha. apply Ha, model_of_valid.
Qed.

(** ** A class with more courses than slots *)

(** A list whose elements have pairwise different images has no duplicate
    image. *)
Lemma NoDup_fmap_filter {A B : Type} `{EqDecision B} (f : A → B) (l : list A) :
  (∀ b, (length (filter (λ x, f x = b) l) ≤ 1)%nat) → NoDup (f <$> l).
Proof.
  induction l as [|x l IH]; intros Hle; [constructor|].
  rewrite fmap_cons. apply NoDup_cons. split.
  - intros (y & Hxy & Hy)%list_elem_of_fmap.
    specialize (Hle (f x)). rewrite filter_cons_True in Hle by done.
    assert (y ∈ filter (λ z, f z = f x) l) as Hin
      by (by apply list_elem_of_filter).
    destruct (filter (λ z, f z = f x) l); [by apply elem_of_nil in Hin|].
    simpl in Hle. lia.
  - apply IH. intros b. specialize (Hle b). rewrite filter_cons in Hle.
    destruct (decide (f x = b)); simpl in Hle; lia.
Qed.

Lemma teachers_for_course_nonempty pd course_code :
  ∃ t, t ∈ teachers_for_course pd course_code.
Proof.
  unfold teachers_for_course.
  destruct (_ ++ _)%list as [|t l]; [exists unassigned|exists t]; by left.
Qed.

Section overfull.
Context (self : TimeTableGenerator) (pd : processed).
Hypothesis Hpre : preprocess self = Some pd.
Hypothesis Hvars : assignments_of pd ≠ [].

(** Once the dict is not empty, every course of a curriculum has a
    variable. *)
Lemma course_has_variable class_name course_code :
  class_name ∈ classes pd →
  course_code ∈ curriculum_of pd class_name →
  ∃ kv, kv ∈ assignments_of pd
        ∧ k_class kv.1 = class_name ∧ k_course kv.1 = course_code.
Proof.
  intros Hc Hco.
  assert (∃ kv0, kv0 ∈ assignments_of pd) as [kv0 Hin0].
  { destruct (assignments_of pd) as [|kv0 a0]; [done|]. exists kv0. left. }
  destruct (assignments_of_generated _ _ Hin0) as [_ _ _ _ Gr Gd Gp].
  destruct (teachers_for_course_nonempty pd course_code) as [t Ht].
  destruct (teachers_for_course_elem _ _ _ _ Hpre Ht) as [Hblank _].
  assert (generated pd (Key class_name course_code t (k_room kv0.1)
                            (k_day kv0.1) (k_period kv0.1))) as Hgen
    by (by split).
  apply assignments_of_keys, list_elem_of_fmap in Hgen as (kv & Hk & Hin).
  exists kv. split; [done|]. by rewrite <- Hk.
Qed.

(** With a room, a day and a period, a class that has a course has a
    variable. *)
Lemma variable_space_nonempty class_name :
  rooms pd ≠ [] → days pd ≠ [] → periods pd ≠ [] →
  class_name ∈ classes pd →
  curriculum_of pd class_name ≠ [] →
  assignments_of pd ≠ [].
Proof.
  intros Hr Hd Hp Hc Hco Hnil.
  destruct (rooms pd) as [|r ?] eqn:Er; [done|].
  destruct (days pd) as [|d ?] eqn:Ed; [done|].
  destruct (periods pd) as [|pw ?] eqn:Ep; [done|].
  destruct (curriculum_of pd class_name) as [|co ?] eqn:Eco; [done|].
  destruct (teachers_for_course_nonempty pd co) as [t Ht].
  destruct (teachers_for_course_elem _ _ _ _ Hpre Ht) as [Hblank _].
  assert (generated pd (Key class_name co t r d pw.1)) as Hgen.
  { split; simpl; [done|rewrite Eco; left|done|done|rewrite Er; left
                  |rewrite Ed; left|rewrite Ep; left]. }
  apply assignments_of_keys in Hgen. rewrite Hnil in Hgen.
  by apply elem_of_nil in Hgen.
Qed.

(** The pigeonhole argument: the true variables of the class cover its
    courses and sit in pairwise different slots. *)
Lemma overfull_infeasible value class_name :
  class_name ∈ classes pd →
  (length (days pd) * length (periods pd)
   < length (remove_dups (curriculum_of pd class_name)))%nat →
  ¬ feasible (model_of pd) value.
Proof.
  intros Hc Hlen Hfeas.
  set (T := true_vars (assignments_of pd) value (λ k, k_class k = class_name)).
  assert (length (remove_dups (curriculum_of pd class_name)) ≤ length T)%nat
    as Hcover.
  { rewrite <- (length_fmap (λ kv : key * var, k_course kv.1) T).
    apply submseteq_length, NoDup_submseteq; [apply NoDup_remove_dups|].
    intros co Hco. rewrite elem_of_remove_dups in Hco.
    pose proof (course_group_exactly_one pd value Hfeas class_name co Hc Hco
                  (course_has_variable _ _ Hc Hco)) as Hone.
    destruct (true_vars _ _ _) as [|kv l] eqn:Htv in Hone; [done|].
    assert (kv ∈ true_vars (assignments_of pd) value
              (λ k, k_class k = class_name ∧ k_course k = co)) as Hkv
      by (rewrite Htv; left).
    apply list_elem_of_filter in Hkv as [[[Hk1 Hk2] Hv] Hin].
    apply list_elem_of_fmap. exists kv. split; [done|].
    apply list_elem_of_filter. done. }
  assert (length T ≤ length (days pd) * length (periods pd))%nat as Hslots.
  { rewrite <- (length_fmap (λ kv : key * var, (k_day kv.1, k_period kv.1)) T).
    rewrite <- (length_fmap fst (periods pd)), <- length_prod,
      <- list_cprod_list_prod.
    apply submseteq_length, NoDup_submseteq.
    - apply NoDup_fmap_filter. intros [d p]. unfold T, true_vars.
      rewrite list_filter_filter.
      etrans; [|apply (class_group_at_most_one pd value Hfeas class_name d p)].
      unfold true_vars. apply Nat.eq_le_incl. f_equal.
      apply list_filter_iff. intros kv. split.
      + intros [[= ? ?] [? ?]]. done.
      + intros [(? & ? & ?) ?]. split; [by f_equal|done].
    - intros [d p] (kv & [= -> ->] & Hin)%list_elem_of_fmap.
      apply list_elem_of_filter in Hin as [_ Hin].
      destruct (assignments_of_generated _ _ Hin) as [_ _ _ _ _ Gd Gp].
      by apply list_elem_of_cprod. }
  lia.
Qed.
End overfull.

(** ** The extraction of the timetable *)

Lemma cell_timetable_set tt c d p s c' d' p' :
  cell (timetable_set tt c d p s) c' d' p'
  = if decide (c = c' ∧ d = d' ∧ p = p') then Some s else cell tt c' d' p'.
Proof.
  unfold cell, timetable_set.
  destruct (decide (c = c')) as [<-|Hc].
  - rewrite lookup_insert_eq; simpl.
    destruct (decide (d = d')) as [<-|Hd].
    + rewrite lookup_insert_eq; simpl.
      destruct (decide (p = p')) as [<-|Hp].
      * rewrite lookup_insert_eq. by rewrite decide_True.
      * rewrite lookup_insert_ne by done. rewrite decide_False by tauto.
        destruct (tt !! c) as [by_day|]; simpl; [|done].
        destruct (by_day !! d); simpl; [done|]. apply lookup_empty.
    + rewrite lookup_insert_ne by done. rewrite decide_False by tauto.
      destruct (tt !! c) as [by_day|]; simpl; [done|]. by rewrite lookup_empty.
  - rewrite lookup_insert_ne by done. by rewrite decide_False by tauto.
Qed.

Lemma true_vars_snoc a kv value (P : key → Prop) `{∀ k, Decision (P k)} :
  true_vars (a ++ [kv])%list value P
  = (true_vars a value P
     ++ if decide (P kv.1 ∧ value kv.2 = true) then [kv] else [])%list.
Proof.
  unfold true_vars. by rewrite filter_app.
Qed.

(** The cell of a class and slot holds the last true variable of that class
    and slot in the order of the dict. *)
Lemma extract_cell pd a value c d p :
  cell (extract_timetable pd a value) c d p
  = (λ kv, session_of pd kv.1)
      <$> last (true_vars a value (λ k, k_class k = c ∧ k_day k = d ∧ k_period k = p)).
Proof.
  unfold extract_timetable. induction a as [|kv a IH] using rev_ind; [done|].
  rewrite for_snoc, true_vars_snoc.
  destruct (value kv.2) eqn:Hv.
  - rewrite cell_timetable_set.
    destruct (decide (k_class kv.1 = c ∧ k_day kv.1 = d ∧ k_period kv.1 = p)) as [Hk|Hk].
    + rewrite decide_True by done. by rewrite last_snoc.
    + rewrite decide_False by tauto. by rewrite app_nil_r.
  - rewrite decide_False by (intros [_ ?]; done). by rewrite app_nil_r.
Qed.

(** ** When [preprocess_data] succeeds *)

Lemma preprocess_subject_is_Some s st :
  is_Some (preprocess_subject s st) ↔ code_ok s.
Proof.
  unfold preprocess_subject, code_ok. destruct (subj_code s) as [code|]; [|by split].
  case_bool_decide as Hcode.
  - split; [by left|done].
  - destruct (Py.last_char code ≫= Py.int_of_char) as [d|].
    + split; [by right|done].
    + split; [by intros []|]. by intros [?|[]].
Qed.

Lemma try_for_preprocess xs st :
  is_Some (try_for xs preprocess_subject st) ↔ Forall code_ok xs.
Proof.
  revert st. induction xs as [|x xs IH]; intros st; simpl.
  - split; [constructor|done].
  - rewrite Forall_cons, <- (preprocess_subject_is_Some x st).
    destruct (preprocess_subject x st) as [st'|].
    + rewrite IH. split; [by split|tauto].
    + split; [by intros []|]. by intros [[] _].
Qed.

Lemma preprocess_data_returns self :
  (preprocess_data self).1 = true ↔ Forall code_ok (subjects_data self).
Proof.
  rewrite <- (try_for_preprocess _ pre_empty).
  unfold preprocess_data, preprocess.
  destruct (try_for _ _ _); simpl; split; try done; by intros [].
Qed.

Lemma preprocess_data_stores self pd :
  preprocess self = Some pd →
  (preprocess_data self).1 = true
  ∧ processed_data (preprocess_data self).2 = Some pd.
Proof. unfold preprocess_data. by intros ->. Qed.

Lemma preprocess_subject_curricula s st st' :
  preprocess_subject s st = Some st' → curricula_nonempty st → curricula_nonempty st'.
Proof.
  unfold preprocess_subject. destruct (subj_code s) as [code|]; [|by intros [= <-]].
  case_bool_decide; [by intros [= <-]|].
  destruct (Py.last_char code ≫= Py.int_of_char) as [d|]; [|done].
  intros [= <-] Hst c; simpl. rewrite lookup_insert.
  case_decide as Hc.
  - intros _. eexists. split; [done|]. by intros [? ?]%app_eq_nil.
  - intros [Hin|Hin%elem_of_singleton]%elem_of_union; [by apply Hst|].
    by subst.
Qed.

Lemma preprocess_curricula self pd c :
  preprocess self = Some pd → c ∈ classes pd → curriculum_of pd c ≠ [].
Proof.
  unfold preprocess, curriculum_of.
  destruct (try_for _ _ _) as [st|] eqn:Hloop; [|done].
  intros [= <-]; simpl. intros Hc%elem_of_sorted.
  assert (curricula_nonempty st) as Hk.
  { eapply (try_for_ind curricula_nonempty);
      [|by eauto using preprocess_subject_curricula|done].
    intros ? Hempty. by apply elem_of_empty in Hempty. }
  destruct (Hk _ Hc) as (l & -> & Hl). done.
Qed.

(** ** The scenarios, evaluated *)

Lemma monday_preprocess : preprocess monday = Some monday_pd.
Proof. vm_compute. reflexivity. Qed.

Lemma forced_preprocess : preprocess forced = Some forced_pd.
Proof. vm_compute. reflexivity. Qed.

Lemma two_unassigned_preprocess : preprocess two_unassigned = Some two_unassigned_pd.
Proof. vm_compute. reflexivity. Qed.

Lemma one_slot_preprocess : preprocess one_slot = Some one_slot_pd.
Proof. vm_compute. reflexivity. Qed.

Lemma uncoded_preprocess : preprocess uncoded = Some uncoded_pd.
Proof. vm_compute. reflexivity. Qed.

Example strip_ex : Py.strip "  Dr A B 	" = "Dr A B".
Proof. reflexivity. Qed.

Example sorted_ex :
  Py.sorted {[ "L2_s1"; "L1_s2"; "L1_s1" ]} = ["L1_s1"; "L1_s2"; "L2_s1"].
Proof. vm_compute. reflexivity. Qed.

(** The model of the Monday scenario. *)
Example monday_model :
  model_of monday_pd
  = {| num_vars := 4;
       constraints :=
         [ExactlyOne [0; 1]; ExactlyOne [2; 3];
          AtMostOne [0; 2]; AtMostOne [1; 3];
          AtMostOne [0; 2]; AtMostOne [1; 3];
          AtMostOne [0; 2]; AtMostOne [1; 3]]%nat;
       objective := [(4, 0%nat); (3, 1%nat); (4, 2%nat); (3, 3%nat)]%Z |}.
Proof. vm_compute. reflexivity. Qed.

Example one_slot_model :
  model_of one_slot_pd
  = {| num_vars := 4;
       constraints :=
         [ExactlyOne [0; 1]; ExactlyOne [2; 3];
          AtMostOne [0; 1]; AtMostOne [2; 3];
          AtMostOne [0; 2]; AtMostOne [1; 3]]%nat;
       objective := [(4, 0%nat); (4, 1%nat); (4, 2%nat); (4, 3%nat)]%Z |}.
Proof. vm_compute. reflexivity. Qed.

Lemma count_true_cons value x l :
  count_true value (x :: l) = ((if value x then 1 else 0) + count_true value l)%nat.
Proof.
  unfold count_true. rewrite filter_cons. by destruct (value x).
Qed.

Lemma count_true_nil value : count_true value [] = 0%nat.
Proof. reflexivity. Qed.

(** In the Monday scenario no feasible valuation scores more than 7. *)
Lemma monday_bound value :
  feasible (model_of monday_pd) value →
  (objective_value (model_of monday_pd) value ≤ 7)%Z.
Proof.
  unfold feasible, objective_value. rewrite monday_model; simpl.
  intros Hf. repeat (apply Forall_cons in Hf as [? Hf]). simpl in *.
  rewrite !count_true_cons, !count_true_nil in *. unfold term_value; simpl.
  destruct (value 0%nat), (value 1%nat), (value 2%nat), (value 3%nat); lia.
Qed.

Lemma monday_feasible : feasible (model_of monday_pd) (chosen [0; 3]%nat).
Proof. compute_done. Qed.

(** The optimum of the Monday scenario is 7. *)
Lemma monday_optimum r :
  answers (model_of monday_pd) r → status_of r = OPTIMAL →
  objective_value (model_of monday_pd) (Value r) = 7%Z.
Proof.
  unfold answers. intros Ha Hs. rewrite Hs in Ha. destruct Ha as [Hf Hmax].
  apply monday_bound in Hf. specialize (Hmax _ monday_feasible).
  change (objective_value (model_of monday_pd) (chosen [0; 3]%nat)) with 7%Z in Hmax.
  lia.
Qed.

Lemma monday_optimal : answers (model_of monday_pd) (answer OPTIMAL [0; 3]%nat).
Proof.
  split; [apply monday_feasible|]. intros value Hf%monday_bound.
  change (objective_value (model_of monday_pd) (Value (answer OPTIMAL [0; 3]%nat)))
    with 7%Z. done.
Qed.

(** * The claims *)

Lemma period_weight_head pd period pw :
  head (filter (λ pw, pw.1 = period) (periods pd)) = Some pw →
  period_weight pd period = (5 - pw.2)%Z.
Proof.
  unfold period_weight. intros Hhead.
  destruct (filter _ (periods pd)) as [|pw' l]; [done|].
  by injection Hhead as ->.
Qed.

Lemma period_configured pd period :
  period ∈ (periods pd).*1 →
  ∃ w, head (filter (λ pw, pw.1 = period) (periods pd)) = Some (period, w).
Proof.
  intros (pw & -> & Hin)%list_elem_of_fmap.
  assert (pw ∈ filter (λ pw', pw'.1 = pw.1) (periods pd)) as Hf
    by (by apply list_elem_of_filter).
  destruct (filter _ (periods pd)) as [|[p w] l] eqn:Hl; [by apply elem_of_nil in Hf|].
  assert ((p, w) ∈ filter (λ pw', pw'.1 = pw.1) (periods pd)) as Hpw
    by (rewrite Hl; left).
  apply list_elem_of_filter in Hpw as [Hp _]. simpl in Hp. subst p.
  by exists w.
Qed.

Lemma objective_term pd kv :
  kv ∈ assignments_of pd →
  (period_weight pd (k_period kv.1), kv.2) ∈ objective (model_of pd).
Proof.
  intros Hin. rewrite objective_model_of. unfold objective_terms.
  apply list_elem_of_fmap. by exists kv.
Qed.

(** C1 (as amended). The objective coefficient of an assignment variable is
    5 minus the weight of the first configured period with the label of its
    key, so a period of weight 1 contributes 4 and a period of weight 5
    contributes 0; in the two-course Monday scenario (weights 1 and 2) every
    optimal answer has the objective value 7 = 4 + 3. *)
Theorem objective_weight_five_minus :
  (∀ pd kv pw,
     kv ∈ assignments_of pd →
     head (filter (λ pw, pw.1 = k_period kv.1) (periods pd)) = Some pw →
     ((5 - pw.2)%Z, kv.2) ∈ objective (model_of pd))
  ∧ (∀ r,
       answers (model_of monday_pd) r → status_of r = OPTIMAL →
       objective_value (model_of monday_pd) (Value r) = 7%Z).
Proof.
  split.
  - intros pd kv pw Hin Hhead.
    rewrite <- (period_weight_head _ _ _ Hhead). by apply objective_term.
  - apply monday_optimum.
Qed.

Lemma objective_weight_five_minus_witness :
  ((5 - 1)%Z, 0%nat) ∈ objective (model_of monday_pd)
  ∧ objective_value (model_of monday_pd) (chosen [0; 3]%nat) = 7%Z.
Proof.
  split.
  - apply (proj1 objective_weight_five_minus monday_pd
             (Key "L1_s1" "C1" "T" "R1" "Lundi" "07:00-09:55", 0%nat)
             ("07:00-09:55", 1%Z)).
    + compute_done.
    + vm_compute. reflexivity.
  - apply (proj2 objective_weight_five_minus (answer OPTIMAL [0; 3]%nat)).
    + apply monday_optimal.
    + reflexivity.
Defined.

(** C1 as stated fails: in the Monday scenario the variable of the period of
    weight 1 has the coefficient 4, not 6 - 1, and no optimal answer has the
    objective value 9. *)
Lemma objective_weight_not_six_minus :
  (Key "L1_s1" "C1" "T" "R1" "Lundi" "07:00-09:55", 0%nat) ∈ assignments_of monday_pd
  ∧ ("07:00-09:55", 1%Z) ∈ periods monday_pd
  ∧ objective (model_of monday_pd) = [(4, 0%nat); (3, 1%nat); (4, 2%nat); (3, 3%nat)]%Z
  ∧ (((6 - 1)%Z, 0%nat) ∉ objective (model_of monday_pd))
  ∧ ∀ r, answers (model_of monday_pd) r → status_of r = OPTIMAL →
         objective_value (model_of monday_pd) (Value r) ≠ 9%Z.
Proof.
  split_and!; [compute_done|compute_done|by vm_compute|compute_done|].
  intros r Ha Hs. rewrite (monday_optimum r Ha Hs). done.
Qed.

(** C2. In an answer of status [OPTIMAL] or [FEASIBLE], a (class, course)
    pair of the curriculum that has at least one assignment variable has
    exactly one true variable among all its (teacher, room, slot)
    combinations. *)
Theorem exactly_one_per_class_course pd r class_name course_code :
  answers (model_of pd) r →
  status_of r = OPTIMAL ∨ status_of r = FEASIBLE →
  class_name ∈ classes pd →
  course_code ∈ curriculum_of pd class_name →
  (∃ kv, kv ∈ assignments_of pd
         ∧ k_class kv.1 = class_name ∧ k_course kv.1 = course_code) →
  length (true_vars (assignments_of pd) (Value r)
            (λ k, k_class k = class_name ∧ k_course k = course_code)) = 1%nat.
Proof.
  intros Ha Hs. apply course_group_exactly_one. by eapply solution_feasible.
Qed.

Lemma exactly_one_per_class_course_witness :
  length (true_vars (assignments_of monday_pd) (chosen [0; 3]%nat)
            (λ k, k_class k = "L1_s1" ∧ k_course k = "C2")) = 1%nat.
Proof.
  apply (exactly_one_per_class_course monday_pd (answer FEASIBLE [0; 3]%nat)).
  - apply monday_feasible.
  - by right.
  - compute_done.
  - compute_done.
  - exists (Key "L1_s1" "C2" "T" "R1" "Lundi" "10:05-12:55", 3%nat).
    split_and!; [compute_done|done|done].
Defined.

(** C9. The key of every assignment variable has a class of the class list,
    a course of that class's curriculum, and a teacher of that course's
    lecturers and assistants, or the stand-in when the course lists none. *)
Theorem variables_only_for_eligible pd kv :
  kv ∈ assignments_of pd →
  let listed := (from_option lecturers [] (courses pd !! k_course kv.1)
                 ++ from_option assistants [] (courses pd !! k_course kv.1))%list in
  k_class kv.1 ∈ classes pd
  ∧ k_course kv.1 ∈ curriculum_of pd (k_class kv.1)
  ∧ (k_teacher kv.1 ∈ listed ∨ (listed = [] ∧ k_teacher kv.1 = unassigned)).
Proof.
  intros [Hc Hco Ht _ _ _ _]%assignments_of_generated listed.
  split_and!; [done|done|].
  unfold teachers_for_course in Ht. fold listed in Ht.
  destruct listed as [|t l]; [|by left].
  right. split; [done|]. by apply list_elem_of_singleton in Ht.
Qed.

Lemma variables_only_for_eligible_witness :
  "L1_s1" ∈ classes monday_pd
  ∧ "C2" ∈ curriculum_of monday_pd "L1_s1"
  ∧ ("T" ∈ (from_option lecturers [] (courses monday_pd !! "C2")
            ++ from_option assistants [] (courses monday_pd !! "C2"))%list
     ∨ ((from_option lecturers [] (courses monday_pd !! "C2")
         ++ from_option assistants [] (courses monday_pd !! "C2"))%list = []
        ∧ "T" = unassigned)).
Proof.
  apply (variables_only_for_eligible monday_pd
           (Key "L1_s1" "C2" "T" "R1" "Lundi" "10:05-12:55", 3%nat)).
  compute_done.
Defined.

(** C10. With the calendar of [__init__], the period of the key of every
    assignment variable is one of the five configured labels, so the lookup
    of its weight finds a configured period and the objective coefficient
    is 5 minus that period's weight, never the default 0 of the lookup. *)
Theorem period_lookup_never_defaults rooms_json subjects pd kv :
  preprocess (init rooms_json subjects) = Some pd →
  kv ∈ assignments_of pd →
  k_period kv.1 ∈ ["07:00-09:55"; "10:05-12:55"; "13:05-15:55";
                   "16:05-18:55"; "19:05-21:55"]
  ∧ ∃ w, head (filter (λ pw, pw.1 = k_period kv.1) (periods pd))
           = Some (k_period kv.1, w)
         ∧ (k_period kv.1, w) ∈ self_periods (init rooms_json subjects)
         ∧ ((5 - w)%Z, kv.2) ∈ objective (model_of pd).
Proof.
  intros (_ & Hperiods & _)%preprocess_spec Hin.
  destruct (assignments_of_generated _ _ Hin) as [_ _ _ _ _ _ Gp].
  split; [by rewrite Hperiods in Gp|].
  destruct (period_configured _ _ Gp) as [w Hw]. exists w. split_and!; [done| |].
  - rewrite <- Hperiods. eapply (list_elem_of_filter (λ pw, pw.1 = k_period kv.1)).
    apply head_Some_elem_of. exact Hw.
  - pose proof (period_weight_head _ _ _ Hw) as Hpw. simpl in Hpw.
    rewrite <- Hpw. by apply objective_term.
Qed.

Lemma period_lookup_never_defaults_witness :
  "07:00-09:55" ∈ ["07:00-09:55"; "10:05-12:55"; "13:05-15:55";
                   "16:05-18:55"; "19:05-21:55"]
  ∧ ∃ w, head (filter (λ pw, pw.1 = "07:00-09:55") (periods uncoded_pd))
           = Some ("07:00-09:55", w)
         ∧ ("07:00-09:55", w) ∈ self_periods uncoded
         ∧ ((5 - w)%Z, 0%nat) ∈ objective (model_of uncoded_pd).
Proof.
  apply (period_lookup_never_defaults _ _ uncoded_pd
           (Key "L1_s1" "INF111" unassigned "R1" "Lundi" "07:00-09:55", 0%nat)
           uncoded_preprocess).
  compute_done.
Defined.

Lemma true_vars_mono a value (P Q : key → Prop)
    `{∀ k, Decision (P k)} `{∀ k, Decision (Q k)} :
  (∀ k, P k → Q k) →
  (length (true_vars a value P) ≤ length (true_vars a value Q))%nat.
Proof.
  intros HPQ. unfold true_vars. induction a as [|kv a IH]; [done|].
  rewrite !filter_cons.
  destruct (decide (P kv.1 ∧ value kv.2 = true)) as [[HP Hv]|_].
  - rewrite decide_True by auto. simpl. lia.
  - destruct (decide (Q kv.1 ∧ value kv.2 = true)); simpl; lia.
Qed.

(** After preprocessing, a teacher that is neither listed nor the stand-in
    has no variable. *)
Lemma unknown_teacher_no_vars self pd t day period :
  preprocess self = Some pd →
  t ∉ teachers pd → t ≠ unassigned →
  vars_where (λ k, k_teacher k = t ∧ k_day k = day ∧ k_period k = period)
             (assignments_of pd) = [].
Proof.
  intros Hpre Ht Hne.
  destruct (decide (vars_where
    (λ k, k_teacher k = t ∧ k_day k = day ∧ k_period k = period)
    (assignments_of pd) = [])) as [|Hvars]; [done|].
  apply vars_where_nonempty in Hvars as (kv & Hin & <- & _).
  destruct (assignments_of_generated _ _ Hin) as [_ _ Gt _ _ _ _].
  destruct (teachers_for_course_elem _ _ _ _ Hpre Gt) as [_ [?|?]]; done.
Qed.

(** C3 (as amended). In an answer of status [OPTIMAL] or [FEASIBLE] at most
    one assignment variable is true for every (class, slot), for every
    (room, slot), and for every (teacher, slot) whose teacher is in the
    teacher list of the processed data or is not the stand-in for a missing
    teacher; a group may have no true variable. *)
Theorem at_most_one_per_slot self pd r :
  preprocess self = Some pd →
  answers (model_of pd) r →
  status_of r = OPTIMAL ∨ status_of r = FEASIBLE →
  (∀ c d p,
     (length (true_vars (assignments_of pd) (Value r)
                (λ k, k_class k = c ∧ k_day k = d ∧ k_period k = p)) ≤ 1)%nat)
  ∧ (∀ ro d p,
       (length (true_vars (assignments_of pd) (Value r)
                  (λ k, k_room k = ro ∧ k_day k = d ∧ k_period k = p)) ≤ 1)%nat)
  ∧ (∀ t d p,
       t ∈ teachers pd ∨ t ≠ unassigned →
       (length (true_vars (assignments_of pd) (Value r)
                  (λ k, k_teacher k = t ∧ k_day k = d ∧ k_period k = p)) ≤ 1)%nat).
Proof.
  intros Hpre Ha Hs. pose proof (solution_feasible _ _ Ha Hs) as Hf.
  split_and!.
  - intros c d p. by apply class_group_at_most_one.
  - intros ro d p. by apply room_group_at_most_one.
  - intros t d p Ht.
    destruct (decide (t ∈ teachers pd)) as [Hin|Hout];
      [by apply teacher_group_at_most_one|].
    destruct Ht as [?|Hne]; [done|].
    rewrite <- count_true_vars_where,
      (unknown_teacher_no_vars _ _ _ _ _ Hpre Hout Hne), count_true_nil. lia.
Qed.

Lemma at_most_one_per_slot_witness :
  (length (true_vars (assignments_of monday_pd) (chosen [0; 3]%nat)
             (λ k, k_teacher k = "T" ∧ k_day k = "Lundi"
                   ∧ k_period k = "07:00-09:55")) ≤ 1)%nat.
Proof.
  apply (proj2 (proj2 (at_most_one_per_slot monday monday_pd
                         (answer FEASIBLE [0; 3]%nat) monday_preprocess
                         monday_feasible (or_intror eq_refl)))).
  left. compute_done.
Defined.

Lemma two_unassigned_feasible :
  feasible (model_of two_unassigned_pd) (chosen [0; 90]%nat).
Proof. compute_done. Qed.

(** C3 as stated fails for the stand-in teacher: with two classes that each
    have a course without teacher, and two rooms, the answer that puts both
    courses in the first slot of Monday, in different rooms, satisfies every
    constraint of the model, and two variables of the stand-in teacher are
    true in that slot. *)
Lemma unassigned_teacher_shares_slot :
  preprocess two_unassigned = Some two_unassigned_pd
  ∧ answers (model_of two_unassigned_pd) (answer FEASIBLE [0; 90]%nat)
  ∧ true_vars (assignments_of two_unassigned_pd) (chosen [0; 90]%nat)
      (λ k, k_teacher k = unassigned ∧ k_day k = "Lundi" ∧ k_period k = "07:00-09:55")
    = [(Key "L1_s1" "INF111" unassigned "R1" "Lundi" "07:00-09:55", 0%nat);
       (Key "L2_s1" "INF211" unassigned "R2" "Lundi" "07:00-09:55", 90%nat)].
Proof.
  split_and!.
  - apply two_unassigned_preprocess.
  - apply two_unassigned_feasible.
  - vm_compute. reflexivity.
Qed.

(** C4 (as amended). When the variable space is not empty, a course with no
    eligible teacher listed has, in an answer of status [OPTIMAL] or
    [FEASIBLE], exactly one true variable, and its teacher is the stand-in
    "Non assigné". Two variables of the stand-in are never true for the same
    room and slot; they are kept from sharing a slot across rooms only when
    the name of the stand-in is itself in the teacher list of the processed
    data. *)
Theorem unassigned_course_placed self pd r class_name course_code :
  preprocess self = Some pd →
  answers (model_of pd) r →
  status_of r = OPTIMAL ∨ status_of r = FEASIBLE →
  assignments_of pd ≠ [] →
  class_name ∈ classes pd →
  course_code ∈ curriculum_of pd class_name →
  (from_option lecturers [] (courses pd !! course_code)
   ++ from_option assistants [] (courses pd !! course_code))%list = [] →
  length (true_vars (assignments_of pd) (Value r)
            (λ k, k_class k = class_name ∧ k_course k = course_code)) = 1%nat
  ∧ (∀ kv, kv ∈ true_vars (assignments_of pd) (Value r)
                  (λ k, k_class k = class_name ∧ k_course k = course_code) →
           k_teacher kv.1 = unassigned)
  ∧ (∀ ro d p,
       (length (true_vars (assignments_of pd) (Value r)
                  (λ k, k_teacher k = unassigned
                        ∧ k_room k = ro ∧ k_day k = d ∧ k_period k = p)) ≤ 1)%nat)
  ∧ (unassigned ∈ teachers pd →
     ∀ d p,
       (length (true_vars (assignments_of pd) (Value r)
                  (λ k, k_teacher k = unassigned ∧ k_day k = d ∧ k_period k = p))
        ≤ 1)%nat).
Proof.
  intros Hpre Ha Hs Hvars Hc Hco Hnone.
  pose proof (solution_feasible _ _ Ha Hs) as Hf. split_and!.
  - apply course_group_exactly_one; [done..|]. by eapply course_has_variable.
  - intros kv [[[_ <-] _] Hin]%list_elem_of_filter.
    destruct (assignments_of_generated _ _ Hin) as [_ _ Gt _ _ _ _].
    unfold teachers_for_course in Gt. rewrite Hnone in Gt.
    by apply list_elem_of_singleton in Gt.
  - intros ro d p.
    etrans; [|apply (room_group_at_most_one pd (Value r) Hf ro d p)].
    apply true_vars_mono. tauto.
  - intros Hin d p. by apply teacher_group_at_most_one.
Qed.

Lemma unassigned_course_placed_witness :
  length (true_vars (assignments_of two_unassigned_pd) (chosen [0; 90]%nat)
            (λ k, k_class k = "L2_s1" ∧ k_course k = "INF211")) = 1%nat.
Proof.
  apply (unassigned_course_placed two_unassigned two_unassigned_pd
           (answer FEASIBLE [0; 90]%nat) "L2_s1" "INF211"
           two_unassigned_preprocess two_unassigned_feasible (or_intror eq_refl)).
  - by vm_compute.
  - compute_done.
  - compute_done.
  - vm_compute. reflexivity.
Defined.

(** C4 as stated fails: with a single slot, two rooms and two classes that
    each have a course without teacher, every answer of status [OPTIMAL] or
    [FEASIBLE] has both courses of the stand-in teacher in that one slot,
    and such an answer exists. *)
Lemma unassigned_sessions_share_the_slot :
  preprocess one_slot = Some one_slot_pd
  ∧ answers (model_of one_slot_pd) (answer FEASIBLE [0; 3]%nat)
  ∧ ∀ r, answers (model_of one_slot_pd) r →
         status_of r = OPTIMAL ∨ status_of r = FEASIBLE →
         length (true_vars (assignments_of one_slot_pd) (Value r)
                   (λ k, k_teacher k = unassigned ∧ k_day k = "Lundi"
                         ∧ k_period k = "07:00-09:55")) = 2%nat.
Proof.
  split_and!.
  - apply one_slot_preprocess.
  - compute_done.
  - intros r Ha Hs. pose proof (solution_feasible _ _ Ha Hs) as Hf.
    rewrite <- count_true_vars_where.
    change (vars_where _ (assignments_of one_slot_pd)) with [0; 1; 2; 3]%nat.
    unfold feasible in Hf. rewrite one_slot_model in Hf; simpl in Hf.
    repeat (apply Forall_cons in Hf as [? Hf]). simpl in *.
    rewrite !count_true_cons, !count_true_nil in *.
    destruct (Value r 0%nat), (Value r 1%nat), (Value r 2%nat), (Value r 3%nat); lia.
Qed.

Lemma no_rooms_no_vars pd : rooms pd = [] → assignments_of pd = [].
Proof.
  intros Hrooms. destruct (assignments_of pd) as [|kv a] eqn:Ha; [done|].
  assert (kv ∈ assignments_of pd) as Hin by (rewrite Ha; left).
  destruct (assignments_of_generated _ _ Hin) as [_ _ _ _ Gr _ _].
  rewrite Hrooms in Gr. by apply elem_of_nil in Gr.
Qed.

(** C5 (as amended). Preprocessing reports no malformed input: it succeeds
    exactly when every subject that has a non-empty code has a code ending
    with a decimal digit, whatever the rooms and teachers are; a subject without code
    is skipped, and every class it produces has a course. [create_model]
    gives up before it creates a variable only when there is no processed
    data or no class; without any room it builds a model with no variable
    and gives up before solving. *)
Theorem preprocess_reports_no_malformed_input self :
  ((preprocess_data self).1 = true ↔ Forall code_ok (subjects_data self))
  ∧ (∀ s st, subj_code s = None ∨ subj_code s = Some "" →
             preprocess_subject s st = Some st)
  ∧ (∀ pd c, preprocess self = Some pd → c ∈ classes pd → curriculum_of pd c ≠ [])
  ∧ (∀ Solve,
       processed_data self = None
       ∨ (∃ pd, processed_data self = Some pd ∧ classes pd = []) →
       create_model self Solve
       = {| returned := false; printed := [MsgInsufficientData]; self_after := self |})
  ∧ (∀ Solve pd,
       processed_data self = Some pd → classes pd ≠ [] → rooms pd = [] →
       create_model self Solve
       = {| returned := false; printed := [MsgCreating; MsgNoVariables];
            self_after := self |}).
Proof.
  split_and!.
  - apply preprocess_data_returns.
  - intros s st [Hs|Hs]; unfold preprocess_subject; by rewrite Hs.
  - intros pd c. apply preprocess_curricula.
  - intros Solve [Hpd|(pd & Hpd & Hcl)]; unfold create_model; rewrite Hpd; [done|].
    by rewrite Hcl.
  - intros Solve pd Hpd Hcl Hrooms.
    rewrite (create_model_unfold _ _ _ Hpd Hcl). by rewrite no_rooms_no_vars.
Qed.

Lemma preprocess_reports_no_malformed_input_witness :
  create_model (preprocess_data no_rooms).2 (λ _, answer UNKNOWN [])
  = {| returned := false; printed := [MsgCreating; MsgNoVariables];
       self_after := (preprocess_data no_rooms).2 |}.
Proof.
  apply (proj2 (proj2 (proj2 (proj2
           (preprocess_reports_no_malformed_input (preprocess_data no_rooms).2))))
           (λ _, answer UNKNOWN [])
           {| classes := ["L1_s1"];
              courses := {[ "INF111" := {| name := "INF111"; lecturers := ["T"];
                                           assistants := []; credit := 0 |} ]};
              teachers := ["T"]; rooms := [];
              curriculum := {[ "L1_s1" := ["INF111"] ]};
              days := self_days no_rooms; periods := self_periods no_rooms |}).
  - vm_compute. reflexivity.
  - done.
  - reflexivity.
Defined.

Lemma uncoded_feasible : feasible (model_of uncoded_pd) (chosen [0]%nat).
Proof. compute_done. Qed.

(** C5 as stated fails: a subject without code and an empty teacher universe
    go through preprocessing, which returns [True], and [create_model] then
    builds the variables, solves and returns [True]; an empty room universe
    goes through preprocessing as well. *)
Lemma malformed_input_accepted :
  subj_code uncoded_subject = None
  ∧ (preprocess_data uncoded).1 = true
  ∧ processed_data (preprocess_data uncoded).2 = Some uncoded_pd
  ∧ teachers uncoded_pd = []
  ∧ honours (λ _, answer FEASIBLE [0]%nat) (model_of uncoded_pd)
  ∧ returned (create_model (preprocess_data uncoded).2 (λ _, answer FEASIBLE [0]%nat))
    = true
  ∧ rooms_data no_rooms = []
  ∧ (preprocess_data no_rooms).1 = true.
Proof.
  split_and!;
    [reflexivity | by vm_compute | by vm_compute | reflexivity
    | apply uncoded_feasible | by vm_compute | reflexivity | by vm_compute].
Qed.

(** C6 (as amended). Once the model has variables, [create_model] returns
    [True] and stores the extracted timetable for the statuses [OPTIMAL] and
    [FEASIBLE], and returns [False] and leaves the generator as it was for
    every other status; [INFEASIBLE] and [UNKNOWN] (the time limit reached
    with no solution) differ only by the status in the printed message. *)
Theorem solver_status_handling self pd Solve :
  processed_data self = Some pd →
  classes pd ≠ [] →
  assignments_of pd ≠ [] →
  (status_of (Solve (model_of pd)) = OPTIMAL
   ∨ status_of (Solve (model_of pd)) = FEASIBLE →
   returned (create_model self Solve) = true
   ∧ self_after (create_model self Solve)
     = with_timetable self
         (extract_timetable pd (assignments_of pd) (Value (Solve (model_of pd)))))
  ∧ (status_of (Solve (model_of pd)) ≠ OPTIMAL →
     status_of (Solve (model_of pd)) ≠ FEASIBLE →
     create_model self Solve
     = {| returned := false;
          printed := [MsgCreating; MsgSolving;
                      MsgNoSolution (status_of (Solve (model_of pd)))];
          self_after := self |}).
Proof.
  intros Hpd Hcl Hvars. rewrite (create_model_unfold _ _ _ Hpd Hcl).
  destruct (assignments_of pd) as [|kv a]; [done|]. cbv zeta.
  split.
  - by intros [->| ->].
  - intros Ho Hf. by destruct (status_of (Solve (model_of pd))).
Qed.

Lemma solver_status_handling_witness :
  create_model (preprocess_data forced).2 (λ _, answer UNKNOWN [])
  = {| returned := false;
       printed := [MsgCreating; MsgSolving; MsgNoSolution UNKNOWN];
       self_after := (preprocess_data forced).2 |}.
Proof.
  apply (proj2 (solver_status_handling (preprocess_data forced).2 forced_pd
                  (λ _, answer UNKNOWN [])
                  (proj2 (preprocess_data_stores _ _ forced_preprocess))
                  ltac:(done) ltac:(by vm_compute))); done.
Defined.

Lemma forced_infeasible value : ¬ feasible (model_of forced_pd) value.
Proof.
  apply (overfull_infeasible forced forced_pd forced_preprocess) with "L1_s1".
  - by vm_compute.
  - compute_done.
  - vm_compute. lia.
Qed.

(** C6 as stated fails: for the two courses with a single slot, a solver
    that answers [INFEASIBLE] and one that answers [UNKNOWN] both honour the
    contract, and [create_model] hands the caller the same [False] and the
    same generator in both cases. *)
Lemma infeasible_and_timeout_conflated :
  honours (λ _, answer INFEASIBLE []) (model_of forced_pd)
  ∧ honours (λ _, answer UNKNOWN []) (model_of forced_pd)
  ∧ returned (create_model (preprocess_data forced).2 (λ _, answer INFEASIBLE []))
    = returned (create_model (preprocess_data forced).2 (λ _, answer UNKNOWN []))
  ∧ self_after (create_model (preprocess_data forced).2 (λ _, answer INFEASIBLE []))
    = self_after (create_model (preprocess_data forced).2 (λ _, answer UNKNOWN [])).
Proof.
  split_and!.
  - intros value. apply forced_infeasible.
  - exact I.
  - vm_compute. reflexivity.
  - vm_compute. reflexivity.
Qed.

(** C7 (as amended). The extraction checks nothing: whatever values the
    solver hands back with the status [OPTIMAL] or [FEASIBLE],
    [create_model] returns [True], and the cell of a class and slot holds the
    session of the last true variable of that class and slot in the order of
    the dict, so an earlier colliding entry is overwritten silently. *)
Theorem extraction_keeps_last self pd Solve :
  processed_data self = Some pd →
  classes pd ≠ [] →
  assignments_of pd ≠ [] →
  status_of (Solve (model_of pd)) = OPTIMAL
  ∨ status_of (Solve (model_of pd)) = FEASIBLE →
  returned (create_model self Solve) = true
  ∧ ∀ c d p,
      cell (timetable (self_after (create_model self Solve))) c d p
      = (λ kv, session_of pd kv.1)
          <$> last (true_vars (assignments_of pd) (Value (Solve (model_of pd)))
                      (λ k, k_class k = c ∧ k_day k = d ∧ k_period k = p)).
Proof.
  intros Hpd Hcl Hvars Hs. rewrite (create_model_unfold _ _ _ Hpd Hcl).
  destruct (assignments_of pd) as [|kv a] eqn:Ha; [done|]. cbv zeta.
  destruct Hs as [-> | ->]; (split; [done|]); intros c d p; simpl;
    apply extract_cell.
Qed.

Lemma extraction_keeps_last_witness :
  cell (timetable (self_after
          (create_model (preprocess_data monday).2
             (λ _, answer FEASIBLE [0; 3]%nat)))) "L1_s1" "Lundi" "10:05-12:55"
  = (λ kv, session_of monday_pd kv.1)
      <$> last (true_vars (assignments_of monday_pd) (chosen [0; 3]%nat)
                  (λ k, k_class k = "L1_s1" ∧ k_day k = "Lundi"
                        ∧ k_period k = "10:05-12:55")).
Proof.
  apply (proj2 (extraction_keeps_last (preprocess_data monday).2 monday_pd
                  (λ _, answer FEASIBLE [0; 3]%nat)
                  (proj2 (preprocess_data_stores _ _ monday_preprocess))
                  ltac:(done) ltac:(by vm_compute) (or_intror eq_refl))).
Defined.

(** C7 as stated fails: when the values handed back make the variables of
    C1 and C2 both true in the first slot of Monday, [create_model] reports
    nothing, returns [True], and the cell holds C2 alone. *)
Lemma collision_silently_overwritten :
  true_vars (assignments_of monday_pd) (chosen [0; 2]%nat)
    (λ k, k_class k = "L1_s1" ∧ k_day k = "Lundi" ∧ k_period k = "07:00-09:55")
  = [(Key "L1_s1" "C1" "T" "R1" "Lundi" "07:00-09:55", 0%nat);
     (Key "L1_s1" "C2" "T" "R1" "Lundi" "07:00-09:55", 2%nat)]
  ∧ returned (create_model (preprocess_data monday).2
                (λ _, answer FEASIBLE [0; 2]%nat)) = true
  ∧ printed (create_model (preprocess_data monday).2
               (λ _, answer FEASIBLE [0; 2]%nat))
    = [MsgCreating; MsgSolving; MsgSolution false 8]
  ∧ cell (timetable (self_after
            (create_model (preprocess_data monday).2
               (λ _, answer FEASIBLE [0; 2]%nat)))) "L1_s1" "Lundi" "07:00-09:55"
    = Some {| course := "C2"; teacher := "T"; room := "R1"; course_name := "C2" |}.
Proof. split_and!; by vm_compute. Qed.

(** C8. When a class of the preprocessed data has more different courses in
    its curriculum than there are slots in the week, [create_model] returns
    [False] and stores no timetable; and when there is a room and a slot, so
    that the model has variables and the solver is called, a solver that
    honours its contract answers [INFEASIBLE] or [UNKNOWN], never [OPTIMAL]
    or [FEASIBLE]. *)
Theorem overfull_class_never_solved self pd Solve class_name :
  preprocess self = Some pd →
  honours Solve (model_of pd) →
  class_name ∈ classes pd →
  (length (days pd) * length (periods pd)
   < length (remove_dups (curriculum_of pd class_name)))%nat →
  returned (create_model (preprocess_data self).2 Solve) = false
  ∧ self_after (create_model (preprocess_data self).2 Solve) = (preprocess_data self).2
  ∧ (rooms pd ≠ [] → days pd ≠ [] → periods pd ≠ [] →
     (status_of (Solve (model_of pd)) = INFEASIBLE
      ∨ status_of (Solve (model_of pd)) = UNKNOWN)
     ∧ printed (create_model (preprocess_data self).2 Solve)
       = [MsgCreating; MsgSolving; MsgNoSolution (status_of (Solve (model_of pd)))]).
Proof.
  intros Hpre Hhon Hc Hlen.
  destruct (preprocess_data_stores _ _ Hpre) as [_ Hpd].
  assert (classes pd ≠ []) as Hcl
    by (intros Hnil; rewrite Hnil in Hc; by apply elem_of_nil in Hc).
  assert (curriculum_of pd class_name ≠ []) as Hco
    by (intros Hnil; rewrite Hnil in Hlen; simpl in Hlen; lia).
  rewrite (create_model_unfold _ _ _ Hpd Hcl).
  destruct (assignments_of pd) as [|kv a] eqn:Ha.
  { split_and!; [done|done|]. intros Hr Hd Hp.
    by destruct (variable_space_nonempty self pd Hpre class_name Hr Hd Hp Hc Hco). }
  cbv zeta.
  assert (status_of (Solve (model_of pd)) ≠ OPTIMAL
          ∧ status_of (Solve (model_of pd)) ≠ FEASIBLE) as [Ho Hf].
  { split; intros Hs;
      (eapply (overfull_infeasible self pd Hpre); [by rewrite Ha|done|done|]);
      eapply solution_feasible; eauto. }
  pose proof (never_model_invalid _ _ Hhon) as Hinv.
  destruct (status_of (Solve (model_of pd))); try done; simpl; auto.
Qed.

Lemma overfull_class_never_solved_witness :
  returned (create_model (preprocess_data forced).2 (λ _, answer INFEASIBLE []))
  = false.
Proof.
  apply (overfull_class_never_solved forced forced_pd (λ _, answer INFEASIBLE [])
           "L1_s1" forced_preprocess).
  - intros value. apply forced_infeasible.
  - compute_done.
  - vm_compute. lia.
Defined.

(** * Further properties of the code *)

Lemma preprocess_subject_entry s st st' :
  preprocess_subject s st = Some st' →
  st' = from_option (λ e, record_entry e st) st (subject_entry s).
Proof.
  unfold preprocess_subject, subject_entry.
  destruct (subj_code s) as [code|]; [|by intros [= <-]].
  case_bool_decide; [by intros [= <-]|].
  destruct (Py.last_char code ≫= Py.int_of_char) as [d|]; [|done].
  by intros [= <-].
Qed.

Lemma try_for_entries xs st st' :
  try_for xs preprocess_subject st = Some st' →
  st' = Py.for_ (subject_entries xs) record_entry st.
Proof.
  revert st. induction xs as [|x xs IH]; intros st; simpl; [by intros [= <-]|].
  destruct (preprocess_subject x st) as [st1|] eqn:Hx; [|done].
  intros Hrest. apply IH in Hrest as ->.
  apply preprocess_subject_entry in Hx as ->.
  unfold subject_entries. simpl. by destruct (subject_entry x).
Qed.

Section record_entries.
Implicit Types (es : list (string * string * course_info)) (st : pre_state).

Lemma record_entries_classes es st c :
  c ∈ pre_classes (Py.for_ es record_entry st)
  ↔ c ∈ pre_classes st ∨ c ∈ es.*1.*1.
Proof.
  induction es as [|e es IH] using rev_ind.
  - simpl. split; [by left|]. by intros [?|?%elem_of_nil].
  - rewrite for_snoc. simpl. rewrite elem_of_union, IH, elem_of_singleton.
    rewrite !fmap_app, elem_of_app. simpl. rewrite list_elem_of_singleton. tauto.
Qed.

Lemma record_entries_curriculum es st c :
  default [] (pre_curriculum (Py.for_ es record_entry st) !! c)
  = (default [] (pre_curriculum st !! c)
     ++ (filter (λ e, e.1.1 = c) es).*1.*2)%list.
Proof.
  induction es as [|e es IH] using rev_ind.
  - simpl. by rewrite app_nil_r.
  - rewrite for_snoc, filter_app, !fmap_app, app_assoc, <- IH. simpl.
    rewrite lookup_insert, filter_cons, filter_nil.
    destruct (decide (e.1.1 = c)) as [->|Hne]; simpl; [done|].
    by rewrite app_nil_r.
Qed.

Lemma record_entries_courses es st code :
  pre_courses (Py.for_ es record_entry st) !! code
  = match last (filter (λ e, e.1.2 = code) es) with
    | Some e => Some e.2
    | None => pre_courses st !! code
    end.
Proof.
  induction es as [|[[c0 code0] info] es IH] using rev_ind; [done|].
  rewrite for_snoc, filter_app, filter_cons, filter_nil. simpl.
  rewrite lookup_insert.
  destruct (decide (code0 = code)) as [->|Hne].
  - by rewrite last_snoc.
  - by rewrite app_nil_r.
Qed.

Lemma record_entries_teachers es st t :
  t ∈ pre_teachers (Py.for_ es record_entry st)
  ↔ t ∈ pre_teachers st
    ∨ ∃ e, e ∈ es ∧ t ∈ (lecturers e.2 ++ assistants e.2)%list.
Proof.
  induction es as [|e es IH] using rev_ind.
  - simpl. split; [by left|]. by intros [?|(? & ?%elem_of_nil & _)].
  - rewrite for_snoc. simpl. rewrite !elem_of_union, IH, !elem_of_list_to_set.
    split.
    + intros [[[?|(e0 & ? & ?)]|?]|?]; [by left|right|right|right].
      * exists e0. split; [apply elem_of_app; by left|done].
      * exists e. split; [apply elem_of_app; right; by left|apply elem_of_app; by left].
      * exists e. split; [apply elem_of_app; right; by left|apply elem_of_app; by right].
    + intros [?|(e0 & [?| ->%list_elem_of_singleton]%elem_of_app & Ht)].
      * by do 3 left.
      * do 2 left. right. by exists e0.
      * apply elem_of_app in Ht as [?|?]; [left; by right|by right].
Qed.
End record_entries.

Lemma preprocess_entries self pd :
  preprocess self = Some pd →
  ∃ st, st = Py.for_ (subject_entries (subjects_data self)) record_entry pre_empty
        ∧ classes pd = Py.sorted (pre_classes st)
        ∧ courses pd = pre_courses st
        ∧ teachers pd = Py.sorted (pre_teachers st)
        ∧ curriculum pd = pre_curriculum st.
Proof.
  unfold preprocess. destruct (try_for _ _ _) as [st|] eqn:Hloop; [|done].
  intros [= <-]. exists st. simpl. split_and!; try done.
  by apply try_for_entries.
Qed.

Lemma classes_elem self pd c :
  preprocess self = Some pd →
  c ∈ classes pd ↔ ∃ e, e ∈ subject_entries (subjects_data self) ∧ e.1.1 = c.
Proof.
  intros (st & -> & -> & _)%preprocess_entries.
  rewrite elem_of_sorted, record_entries_classes. simpl. split.
  - intros [?%elem_of_empty|Hin]; [done|].
    apply list_elem_of_fmap in Hin as (e1 & -> & (e & -> & He)%list_elem_of_fmap).
    by exists e.
  - intros (e & He & <-). right. by do 2 apply list_elem_of_fmap_2.
Qed.

Lemma curriculum_elem self pd c co :
  preprocess self = Some pd →
  co ∈ curriculum_of pd c
  ↔ ∃ e, e ∈ subject_entries (subjects_data self) ∧ e.1.1 = c ∧ e.1.2 = co.
Proof.
  intros (st & -> & _ & _ & _ & Hcur)%preprocess_entries.
  unfold curriculum_of. rewrite Hcur, record_entries_curriculum. simpl.
  rewrite lookup_empty. simpl. split.
  - intros (e1 & -> & (e & -> & [Hc He]%list_elem_of_filter)%list_elem_of_fmap)%list_elem_of_fmap.
    by exists e.
  - intros (e & He & Hc & <-). do 2 apply list_elem_of_fmap_2.
    by apply list_elem_of_filter.
Qed.

Lemma courses_entry self pd e :
  preprocess self = Some pd →
  e ∈ subject_entries (subjects_data self) →
  ∃ e0, e0 ∈ subject_entries (subjects_data self)
        ∧ e0.1.2 = e.1.2 ∧ courses pd !! e.1.2 = Some e0.2.
Proof.
  intros (st & -> & _ & Hco & _)%preprocess_entries Hin.
  rewrite Hco, record_entries_courses.
  assert (e ∈ filter (λ e0, e0.1.2 = e.1.2) (subject_entries (subjects_data self)))
    as Hf by (by apply list_elem_of_filter).
  destruct (last (filter _ _)) as [e2|] eqn:Hlast.
  - exists e2. apply last_Some_elem_of in Hlast.
    apply list_elem_of_filter in Hlast as [? ?]. done.
  - apply last_None in Hlast. rewrite Hlast in Hf. by apply elem_of_nil in Hf.
Qed.

Lemma sorted_NoDup (s : gset string) : NoDup (Py.sorted s).
Proof.
  unfold Py.sorted. rewrite merge_sort_Permutation. apply NoDup_elements.
Qed.

Lemma sorted_StronglySorted (s : gset string) : StronglySorted String.le (Py.sorted s).
Proof. unfold Py.sorted. apply StronglySorted_merge_sort; apply _. Qed.

(** X1. The class list of the processed data holds exactly the class names
    of the subjects that are not skipped, without duplicate and in
    increasing order. *)
Theorem classes_of_subjects self pd :
  preprocess self = Some pd →
  (∀ c, c ∈ classes pd ↔ c ∈ (subject_entries (subjects_data self)).*1.*1)
  ∧ NoDup (classes pd)
  ∧ StronglySorted String.le (classes pd).
Proof.
  intros (st & -> & -> & _)%preprocess_entries. split_and!.
  - intros c. rewrite elem_of_sorted, record_entries_classes. simpl.
    split; [|by right]. by intros [?%elem_of_empty|?].
  - apply sorted_NoDup.
  - apply sorted_StronglySorted.
Qed.

(** X2. The curriculum of a class lists the codes of the subjects of that
    class in the order of the subjects, a code as many times as it is
    listed. *)
Theorem curriculum_of_subjects self pd c :
  preprocess self = Some pd →
  curriculum_of pd c
  = (filter (λ e, e.1.1 = c) (subject_entries (subjects_data self))).*1.*2.
Proof.
  intros (st & -> & _ & _ & _ & Hcur)%preprocess_entries.
  unfold curriculum_of. rewrite Hcur, record_entries_curriculum. simpl.
  by rewrite lookup_empty.
Qed.

(** X3. The entry of a code in [courses] is the one of the last subject with
    that code, whatever its class; a code that no subject carries has no
    entry. *)
Theorem courses_last_wins self pd code :
  preprocess self = Some pd →
  courses pd !! code
  = (λ e, e.2) <$> last (filter (λ e, e.1.2 = code)
                                (subject_entries (subjects_data self))).
Proof.
  intros (st & -> & _ & Hco & _)%preprocess_entries.
  rewrite Hco, record_entries_courses. simpl.
  destruct (last _); [done|]. apply lookup_empty.
Qed.

Lemma valid_names_stripped ls t : t ∈ valid_names ls → Py.strip t = t ∧ t ≠ "".
Proof.
  unfold valid_names. intros (l & _ & Hl)%list_elem_of_omap.
  destruct l as [s|]; [|done].
  destruct (bool_decide (s ≠ "")); simpl in Hl; [|done].
  case_bool_decide as Hs; simpl in Hl; [|done].
  injection Hl as <-. split; [apply strip_idemp|done].
Qed.

(** X4. The teacher list holds exactly the valid lecturers and assistants of
    the subjects that are not skipped (also those of an entry of [courses]
    that a later subject replaced), without duplicate, in increasing order,
    each name stripped and not empty. *)
Theorem teachers_of_subjects self pd :
  preprocess self = Some pd →
  (∀ t, t ∈ teachers pd
        ↔ ∃ e, e ∈ subject_entries (subjects_data self)
               ∧ t ∈ (lecturers e.2 ++ assistants e.2)%list)
  ∧ NoDup (teachers pd)
  ∧ StronglySorted String.le (teachers pd)
  ∧ (∀ t, t ∈ teachers pd → Py.strip t = t ∧ t ≠ "").
Proof.
  intros Hpre. pose proof Hpre as (st & -> & _ & _ & -> & _)%preprocess_entries.
  assert (∀ t, t ∈ Py.sorted (pre_teachers
            (Py.for_ (subject_entries (subjects_data self)) record_entry pre_empty))
        ↔ ∃ e, e ∈ subject_entries (subjects_data self)
               ∧ t ∈ (lecturers e.2 ++ assistants e.2)%list) as Hchar.
  { intros t. rewrite elem_of_sorted, record_entries_teachers. simpl.
    split; [|by right]. by intros [?%elem_of_empty|?]. }
  split_and!; [done|apply sorted_NoDup|apply sorted_StronglySorted|].
  intros t (e & He & Ht)%Hchar.
  apply list_elem_of_omap in He as (s & _ & Hs).
  unfold subject_entry in Hs. destruct (subj_code s) as [code|]; [|done].
  case_bool_decide; [done|].
  destruct (Py.last_char code ≫= Py.int_of_char); [|done].
  injection Hs as <-. simpl in Ht.
  apply elem_of_app in Ht as [Ht|Ht]; by eapply valid_names_stripped.
Qed.

(** ** The dict and its variables *)

Lemma dict_set_fst {V : Type} (d : list (key * V)) k v :
  (Py.dict_set d k v).*1 = if decide (k ∈ d.*1) then d.*1 else (d.*1 ++ [k])%list.
Proof.
  induction d as [|[k0 v0] d IH]; [done|]. cbn [Py.dict_set].
  destruct (decide (k0 = k)) as [->|Hne]; rewrite !fmap_cons; cbn [fst].
  - rewrite decide_True by left. done.
  - rewrite IH. destruct (decide (k ∈ d.*1)) as [Hin|Hout].
    + rewrite decide_True by (by right). done.
    + rewrite decide_False; [done|]. by intros [?|?]%elem_of_cons.
Qed.

Lemma dict_set_NoDup_keys {V : Type} (d : list (key * V)) k v :
  NoDup d.*1 → NoDup (Py.dict_set d k v).*1.
Proof.
  intros Hd. rewrite dict_set_fst. case_decide; [done|].
  apply NoDup_app. split_and!; [done| |apply NoDup_singleton].
  intros x Hx ->%list_elem_of_singleton. done.
Qed.

Lemma dict_set_snd_elem {V : Type} (d : list (key * V)) k v x :
  x ∈ (Py.dict_set d k v).*2 → x ∈ d.*2 ∨ x = v.
Proof.
  intros ([k0 v0] & -> & Hin)%list_elem_of_fmap.
  apply dict_set_elem in Hin as [Hin|[= -> ->]]; [|by right].
  left. apply list_elem_of_fmap. by exists (k0, v0).
Qed.

Lemma dict_set_NoDup_vals {V : Type} (d : list (key * V)) k v :
  NoDup d.*2 → v ∉ d.*2 → NoDup (Py.dict_set d k v).*2.
Proof.
  induction d as [|[k0 v0] d IH]; intros Hd Hv; [apply NoDup_singleton|].
  rewrite fmap_cons in Hd, Hv. cbn [snd] in Hd, Hv.
  apply NoDup_cons in Hd as [Hv0 Hd]. apply not_elem_of_cons in Hv as [Hne Hv].
  cbn [Py.dict_set].
  destruct (decide (k0 = k)) as [->|Hk]; rewrite fmap_cons; cbn [snd].
  - apply NoDup_cons. done.
  - apply NoDup_cons. split; [|by apply IH].
    intros [?|?]%dict_set_snd_elem; done.
Qed.

Lemma new_assignments_NoDup ks m a :
  NoDup a.*1 → NoDup a.*2 → (∀ x, x ∈ a.*2 → (x < num_vars m)%nat) →
  NoDup (Py.for_ ks new_assignment (m, a)).2.*1
  ∧ NoDup (Py.for_ ks new_assignment (m, a)).2.*2.
Proof.
  revert m a. induction ks as [|k ks IH]; intros m a Hk Hv Hb; [done|].
  rewrite for_cons, new_assignment_eq. apply IH.
  - by apply dict_set_NoDup_keys.
  - apply dict_set_NoDup_vals; [done|]. intros Hin%Hb. lia.
  - intros x [Hx| ->]%dict_set_snd_elem; simpl; [|lia].
    apply Hb in Hx. lia.
Qed.

(** X6. The keys of the dict are pairwise different and so are its
    variables, which are all variables the model created; the dict has at
    most as many entries as the model has variables. *)
Theorem assignments_distinct pd :
  NoDup (assignments_of pd).*1
  ∧ NoDup (assignments_of pd).*2
  ∧ (∀ kv, kv ∈ assignments_of pd → (kv.2 < num_vars (model_of pd))%nat)
  ∧ (length (assignments_of pd) ≤ num_vars (model_of pd))%nat.
Proof.
  assert (NoDup (assignments_of pd).*1 ∧ NoDup (assignments_of pd).*2) as [Hk Hv].
  { unfold assignments_of. rewrite build_spec. simpl.
    apply new_assignments_NoDup; [constructor|constructor|].
    by intros x ?%elem_of_nil. }
  split_and!; [done|done|apply assignments_of_bound|].
  rewrite <- (length_fmap snd).
  assert ((assignments_of pd).*2 ⊆+ seq 0 (num_vars (model_of pd))) as Hsub.
  { apply NoDup_submseteq; [done|].
    intros x (kv & -> & Hin)%list_elem_of_fmap.
    apply elem_of_seq. apply assignments_of_bound in Hin.
    split; [apply Nat.le_0_l|exact Hin]. }
  apply submseteq_length in Hsub. by rewrite length_seq in Hsub.
Qed.

(** ** The constraints handed to the solver *)

Lemma guarded_elem_nonempty (c : list var → constraint) vars x :
  x ∈ guarded c vars → x = c vars ∧ vars ≠ [].
Proof.
  destruct vars; [by intros ?%elem_of_nil|].
  by intros ->%list_elem_of_singleton.
Qed.

Lemma vars_where_dict (P : key → Prop) `{∀ k, Decision (P k)} a x :
  x ∈ vars_where P a → x ∈ a.*2.
Proof.
  intros (kv & -> & [_ Hin]%list_elem_of_filter)%list_elem_of_fmap.
  by apply list_elem_of_fmap_2.
Qed.

Lemma guarded_wellformed pd (c : list var → constraint) (P : key → Prop)
    `{∀ k, Decision (P k)} x :
  (∀ l, lits_of (c l) = l) →
  x ∈ guarded c (vars_where P (assignments_of pd)) →
  lits_of x ≠ [] ∧ ∀ v, v ∈ lits_of x → v ∈ (assignments_of pd).*2.
Proof.
  intros Hc [-> Hne]%guarded_elem_nonempty. rewrite Hc. split; [done|].
  intros v. apply vars_where_dict.
Qed.

(** X7. No constraint of the model is over an empty list of literals, every
    literal is a variable of the dict, and the objective has one term per
    entry of the dict, in its order. *)
Theorem model_wellformed pd :
  (∀ c, c ∈ constraints (model_of pd) →
        lits_of c ≠ [] ∧ ∀ v, v ∈ lits_of c → v ∈ (assignments_of pd).*2)
  ∧ (objective (model_of pd)).*2 = (assignments_of pd).*2.
Proof.
  split.
  - intros c. rewrite constraints_model_of.
    unfold course_constraints, class_constraints, room_constraints,
      teacher_constraints.
    rewrite !elem_of_app. intros [Hc|[Hc|[Hc|Hc]]];
      repeat (apply list_elem_of_bind in Hc as (? & Hc & _));
      by eapply guarded_wellformed in Hc.
  - rewrite objective_model_of. unfold objective_terms.
    rewrite <- list_fmap_compose. done.
Qed.

(** ** When [create_model] reaches the solver *)


Lemma assignments_empty_iff self pd :
  preprocess self = Some pd →
  assignments_of pd = []
  ↔ classes pd = [] ∨ rooms pd = [] ∨ days pd = [] ∨ periods pd = [].
Proof.
  intros Hpre. split.
  - intros Hnil.
    destruct (classes pd) as [|c cs] eqn:Hc; [by left|].
    destruct (rooms pd) as [|r rs] eqn:Hr; [right; by left|].
    destruct (days pd) as [|d ds] eqn:Hd; [do 2 right; by left|].
    destruct (periods pd) as [|p ps] eqn:Hp; [by do 3 right|].
    exfalso. apply (variable_space_nonempty self pd Hpre c);
      [by rewrite Hr|by rewrite Hd|by rewrite Hp|rewrite Hc; left| |done].
    apply (preprocess_curricula self pd c Hpre). rewrite Hc. left.
  - intros Hempty. destruct (assignments_of pd) as [|kv a] eqn:Ha; [done|].
    assert (kv ∈ assignments_of pd) as Hin by (rewrite Ha; left).
    destruct (assignments_of_generated _ _ Hin) as [Gc _ _ _ Gr Gd Gp].
    destruct Hempty as [H|[H|[H|H]]]; rewrite H in *;
      first [by apply elem_of_nil in Gc | by apply elem_of_nil in Gr
            | by apply elem_of_nil in Gd | by apply elem_of_nil in Gp].
Qed.

(** X8. After preprocessing, [create_model] returns [True] exactly when the
    processed data have a class, a room, a day and a period and the solver
    answers [OPTIMAL] or [FEASIBLE]. *)
Theorem create_model_returns_true_iff self pd Solve :
  preprocess self = Some pd →
  returned (create_model (preprocess_data self).2 Solve) = true
  ↔ classes pd ≠ [] ∧ rooms pd ≠ [] ∧ days pd ≠ [] ∧ periods pd ≠ []
    ∧ (status_of (Solve (model_of pd)) = OPTIMAL
       ∨ status_of (Solve (model_of pd)) = FEASIBLE).
Proof.
  intros Hpre. destruct (preprocess_data_stores _ _ Hpre) as [_ Hpd].
  pose proof (assignments_empty_iff _ _ Hpre) as Hempty.
  destruct (classes pd) as [|c cs] eqn:Hc.
  { unfold create_model. rewrite Hpd, Hc. simpl. split; [done|]. by intros [? _]. }
  rewrite (create_model_unfold _ _ _ Hpd) by (by rewrite Hc).
  destruct (assignments_of pd) as [|kv a] eqn:Ha.
  - simpl. split; [done|]. intros (_ & Hr & Hd & Hp & _).
    destruct (proj1 Hempty eq_refl) as [?|[?|[?|?]]]; done.
  - cbv zeta. assert (rooms pd ≠ [] ∧ days pd ≠ [] ∧ periods pd ≠ []) as (Hr & Hd & Hp).
    { split_and!; intros Hnil; assert (kv :: a = []) as Habs
        by (apply Hempty; auto); done. }
    destruct (status_of (Solve (model_of pd))); simpl; split;
      try done; try (by intros (_ & _ & _ & _ & [?|?])); intros _;
      split_and!; auto.
Qed.

(** ** The courses behind the variables *)

(** X5. Every code of a curriculum has an entry in [courses], that of a
    subject with this code, so the lookups of [create_model] that have a
    default never use it. *)
Theorem curriculum_courses_known self pd c co :
  preprocess self = Some pd →
  co ∈ curriculum_of pd c →
  ∃ e, e ∈ subject_entries (subjects_data self)
       ∧ e.1.2 = co ∧ courses pd !! co = Some e.2.
Proof.
  intros Hpre (e & He & _ & <-)%(curriculum_elem _ _ _ _ Hpre).
  destruct (courses_entry _ _ _ Hpre He) as (e0 & He0 & Hcode & Hinfo).
  by exists e0.
Qed.

(** ** The stored timetable *)

Lemma true_vars_elem a value (P : key → Prop) `{∀ k, Decision (P k)} kv :
  kv ∈ true_vars a value P ↔ (P kv.1 ∧ value kv.2 = true) ∧ kv ∈ a.
Proof. unfold true_vars. by rewrite list_elem_of_filter. Qed.

Lemma at_most_one_eq {A : Type} (l : list A) x y :
  (length l ≤ 1)%nat → x ∈ l → y ∈ l → x = y.
Proof.
  destruct l as [|z [|z' l]]; simpl; intros Hlen Hx Hy; [by apply elem_of_nil in Hx| |lia].
  apply list_elem_of_singleton in Hx, Hy. congruence.
Qed.

(** A cell holds the session of a true variable of its class and slot. *)
Lemma cell_from_true_var pd a value c d p s :
  cell (extract_timetable pd a value) c d p = Some s →
  ∃ kv, kv ∈ a ∧ value kv.2 = true
        ∧ k_class kv.1 = c ∧ k_day kv.1 = d ∧ k_period kv.1 = p
        ∧ s = session_of pd kv.1.
Proof.
  rewrite extract_cell. destruct (last _) as [kv|] eqn:Hlast; [|done].
  intros [= <-]. apply last_Some_elem_of, true_vars_elem in Hlast.
  exists kv. tauto.
Qed.

(** When the class constraints hold, a true variable is in its cell. *)
Lemma true_var_in_cell pd value kv :
  feasible (model_of pd) value →
  kv ∈ assignments_of pd → value kv.2 = true →
  cell (extract_timetable pd (assignments_of pd) value)
       (k_class kv.1) (k_day kv.1) (k_period kv.1)
  = Some (session_of pd kv.1).
Proof.
  intros Hf Hin Hv. rewrite extract_cell.
  pose proof (class_group_at_most_one pd value Hf
                (k_class kv.1) (k_day kv.1) (k_period kv.1)) as Hle.
  assert (kv ∈ true_vars (assignments_of pd) value
            (λ k, k_class k = k_class kv.1 ∧ k_day k = k_day kv.1
                  ∧ k_period k = k_period kv.1)) as Hkv
    by (by apply true_vars_elem).
  destruct (last _) as [kv'|] eqn:Hlast.
  - apply last_Some_elem_of in Hlast.
    by rewrite (at_most_one_eq _ _ _ Hle Hkv Hlast).
  - apply last_None in Hlast. rewrite Hlast in Hkv. by apply elem_of_nil in Hkv.
Qed.

(** A successful run of [create_model] stores the timetable extracted from
    the answer of the solver on [model_of]. *)
Lemma create_model_success self pd Solve :
  processed_data self = Some pd →
  returned (create_model self Solve) = true →
  assignments_of pd ≠ []
  ∧ (status_of (Solve (model_of pd)) = OPTIMAL
     ∨ status_of (Solve (model_of pd)) = FEASIBLE)
  ∧ timetable (self_after (create_model self Solve))
    = extract_timetable pd (assignments_of pd) (Value (Solve (model_of pd))).
Proof.
  intros Hpd. destruct (classes pd) as [|c cs] eqn:Hc.
  { unfold create_model. by rewrite Hpd, Hc. }
  rewrite (create_model_unfold _ _ _ Hpd) by (by rewrite Hc).
  destruct (assignments_of pd) as [|kv a]; [done|]. cbv zeta.
  destruct (status_of (Solve (model_of pd))); simpl; try done; auto.
Qed.

(** X9. Every cell of the timetable stored by a successful [create_model]
    comes from the data, whatever the solver answered: its class, day and
    period are those of the processed data, its course is in the curriculum
    of the class, its teacher is one of the course, its room is a room, and
    its course name is the name recorded for the course. *)
Theorem timetable_cells_from_data self pd Solve c d p s :
  preprocess self = Some pd →
  returned (create_model (preprocess_data self).2 Solve) = true →
  cell (timetable (self_after (create_model (preprocess_data self).2 Solve))) c d p
  = Some s →
  c ∈ classes pd ∧ d ∈ days pd ∧ p ∈ (periods pd).*1
  ∧ course s ∈ curriculum_of pd c
  ∧ teacher s ∈ teachers_for_course pd (course s)
  ∧ room s ∈ rooms pd
  ∧ ∃ info, courses pd !! course s = Some info ∧ course_name s = name info.
Proof.
  intros Hpre Hreturned.
  destruct (preprocess_data_stores _ _ Hpre) as [_ Hpd].
  destruct (create_model_success _ _ _ Hpd Hreturned) as (_ & _ & ->).
  intros (kv & Hin & _ & <- & <- & <- & ->)%cell_from_true_var.
  destruct (assignments_of_generated _ _ Hin) as [Gc Gco Gt _ Gr Gd Gp].
  split_and!; try done. simpl.
  apply (curriculum_elem _ _ _ _ Hpre) in Gco as (e & He & _ & Hcode).
  destruct (courses_entry _ _ _ Hpre He) as (e0 & _ & _ & Hinfo).
  rewrite Hcode in Hinfo. exists e0.2. by rewrite Hinfo.
Qed.

Section stored_timetable.
Context (self : TimeTableGenerator) (pd : processed) (Solve : CpModel → response).
Hypothesis Hpre : preprocess self = Some pd.
Hypothesis Hhonours : honours Solve (model_of pd).
Hypothesis Hreturned :
  returned (create_model (preprocess_data self).2 Solve) = true.

Lemma stored_timetable_eq :
  assignments_of pd ≠ []
  ∧ feasible (model_of pd) (Value (Solve (model_of pd)))
  ∧ timetable (self_after (create_model (preprocess_data self).2 Solve))
    = extract_timetable pd (assignments_of pd) (Value (Solve (model_of pd))).
Proof.
  destruct (preprocess_data_stores _ _ Hpre) as [_ Hpd].
  destruct (create_model_success _ _ _ Hpd Hreturned) as (Hvars & Hs & Htt).
  split_and!; [done| |done]. by eapply solution_feasible.
Qed.

(** The one true variable of a course of a class, and its cell. *)
Lemma course_placed c co :
  c ∈ classes pd → co ∈ curriculum_of pd c →
  ∃ kv,
    kv ∈ assignments_of pd
    ∧ k_class kv.1 = c ∧ k_course kv.1 = co
    ∧ cell (timetable (self_after (create_model (preprocess_data self).2 Solve)))
           c (k_day kv.1) (k_period kv.1)
      = Some (session_of pd kv.1)
    ∧ ∀ kv', kv' ∈ assignments_of pd →
             Value (Solve (model_of pd)) kv'.2 = true →
             k_class kv'.1 = c → k_course kv'.1 = co → kv' = kv.
Proof.
  intros Hc Hco. destruct stored_timetable_eq as (Hvars & Hf & ->).
  pose proof (course_group_exactly_one pd _ Hf c co Hc Hco
                (course_has_variable self pd Hpre Hvars _ _ Hc Hco)) as Hone.
  destruct (true_vars _ _ _) as [|kv l] eqn:Htv in Hone; [done|].
  assert (kv ∈ true_vars (assignments_of pd) (Value (Solve (model_of pd)))
            (λ k, k_class k = c ∧ k_course k = co)) as Hkv
    by (rewrite Htv; left).
  pose proof Hkv as [[[Hkc Hkco] Hv] Hin]%true_vars_elem.
  exists kv. split_and!; [done|done|done| |].
  - rewrite <- Hkc. by apply true_var_in_cell.
  - intros kv' Hin' Hv' Hc' Hco'.
    assert (kv' ∈ true_vars (assignments_of pd) (Value (Solve (model_of pd)))
              (λ k, k_class k = c ∧ k_course k = co)) as Hkv'
      by (by apply true_vars_elem).
    eapply at_most_one_eq; [|exact Hkv'|exact Hkv].
    rewrite Htv. simpl in *. lia.
Qed.

(** X10. With a solver that honours its contract, every course of the
    curriculum of every class is in exactly one cell of the timetable of the
    class. *)
Theorem timetable_covers_curriculum c co :
  c ∈ classes pd → co ∈ curriculum_of pd c →
  ∃ d p s,
    cell (timetable (self_after (create_model (preprocess_data self).2 Solve))) c d p
    = Some s
    ∧ course s = co
    ∧ ∀ d' p' s',
        cell (timetable (self_after (create_model (preprocess_data self).2 Solve)))
             c d' p' = Some s' →
        course s' = co → d' = d ∧ p' = p.
Proof.
  intros Hc Hco.
  destruct (course_placed c co Hc Hco) as (kv & Hin & Hkc & Hkco & Hcell & Huniq).
  exists (k_day kv.1), (k_period kv.1), (session_of pd kv.1).
  split_and!; [done|done|].
  destruct stored_timetable_eq as (_ & _ & Htt). rewrite Htt.
  intros d' p' s' (kv' & Hin' & Hv' & Hc' & <- & <- & ->)%cell_from_true_var Hco'.
  by rewrite (Huniq kv' Hin' Hv' Hc' Hco').
Qed.

(** X11. With a solver that honours its contract, two cells of the same day
    and period with the same room are cells of the same class. *)
Theorem timetable_no_room_conflict c1 c2 d p s1 s2 :
  cell (timetable (self_after (create_model (preprocess_data self).2 Solve))) c1 d p
  = Some s1 →
  cell (timetable (self_after (create_model (preprocess_data self).2 Solve))) c2 d p
  = Some s2 →
  room s1 = room s2 → c1 = c2.
Proof.
  destruct stored_timetable_eq as (_ & Hf & ->).
  intros (kv1 & Hin1 & Hv1 & <- & <- & <- & ->)%cell_from_true_var
         (kv2 & Hin2 & Hv2 & <- & Hd & Hp & ->)%cell_from_true_var Hroom.
  simpl in Hroom.
  pose proof (room_group_at_most_one pd _ Hf
                (k_room kv1.1) (k_day kv1.1) (k_period kv1.1)) as Hle.
  assert (kv1 = kv2) as ->; [|done].
  eapply at_most_one_eq; [exact Hle|by apply true_vars_elem..].
Qed.

(** X12. With a solver that honours its contract, two cells of the same day
    and period with the same teacher are cells of the same class, when the
    teacher is in the teacher list or is not the stand-in. *)
Theorem timetable_no_teacher_conflict c1 c2 d p s1 s2 :
  cell (timetable (self_after (create_model (preprocess_data self).2 Solve))) c1 d p
  = Some s1 →
  cell (timetable (self_after (create_model (preprocess_data self).2 Solve))) c2 d p
  = Some s2 →
  teacher s1 = teacher s2 →
  teacher s1 ∈ teachers pd ∨ teacher s1 ≠ unassigned →
  c1 = c2.
Proof.
  destruct stored_timetable_eq as (_ & Hf & ->).
  intros (kv1 & Hin1 & Hv1 & <- & <- & <- & ->)%cell_from_true_var
         (kv2 & Hin2 & Hv2 & <- & Hd & Hp & ->)%cell_from_true_var Hteacher Hlisted.
  simpl in Hteacher, Hlisted.
  assert (k_teacher kv1.1 ∈ teachers pd) as Ht.
  { destruct Hlisted as [?|Hne]; [done|].
    destruct (assignments_of_generated _ _ Hin1) as [_ _ Gt _ _ _ _].
    by destruct (teachers_for_course_elem _ _ _ _ Hpre Gt) as [_ [?|?]]. }
  pose proof (teacher_group_at_most_one pd _ Hf
                (k_teacher kv1.1) (k_day kv1.1) (k_period kv1.1) Ht) as Hle.
  assert (kv1 = kv2) as ->; [|done].
  eapply at_most_one_eq; [exact Hle|by apply true_vars_elem..].
Qed.
End stored_timetable.

(** ** [load_data] *)

Lemma for_append {A B : Type} (xs : list A) (f : A → list B) (acc : list B) :
  Py.for_ xs (λ x acc, (acc ++ f x)%list) acc = (acc ++ (xs ≫= f))%list.
Proof.
  revert acc. induction xs as [|x xs IH]; intros acc.
  - simpl. by rewrite app_nil_r.
  - rewrite for_cons, IH, bind_cons, app_assoc. done.
Qed.

Lemma flatten_subjects_bind j :
  flatten_subjects j
  = niveau ← default [] (json_niveau j);
    semestre ← niveau.2;
    subject ← default [] (sem_subjects semestre.2);
    [tag_subject niveau.1 semestre.1 subject].
Proof.
  unfold flatten_subjects.
  rewrite <- (app_nil_l (_ ≫= _)), <- for_append.
  apply for_ext; intros niveau acc1 _.
  rewrite <- for_append. apply for_ext; intros semestre acc2 _.
  rewrite <- for_append. done.
Qed.

Lemma subject_entry_tagged n sem s e :
  subject_entry (tag_subject n sem s) = Some e →
  e.1.1 = "L" +:+ n +:+ "_" +:+ sem ∧ subj_code s = Some e.1.2 ∧ e.1.2 ≠ "".
Proof.
  unfold subject_entry. simpl. destruct (subj_code s) as [code|]; [|done].
  case_bool_decide; [done|].
  destruct (Py.last_char code ≫= Py.int_of_char); [|done].
  by intros [= <-].
Qed.

Lemma code_ok_entry s code :
  code_ok s → subj_code s = Some code → code ≠ "" → is_Some (subject_entry s).
Proof.
  unfold code_ok, subject_entry. intros Hok Hcode Hne. rewrite Hcode in *.
  rewrite bool_decide_eq_false_2 by done.
  destruct Hok as [?|[d Hd]]; [done|]. by rewrite Hd.
Qed.

(** X14. After [load_data] and [preprocess_data], the classes are the
    L<level>_<semester> of the places of the subjects file that hold a
    subject with a non-empty code; the level and the semester a record
    carries itself, and the defaults derived from the code, are not used. *)
Theorem loaded_classes self rooms_file subjects_file j pd c :
  subjects_file = Content j →
  (load_data self rooms_file subjects_file).1 = true →
  preprocess (load_data self rooms_file subjects_file).2 = Some pd →
  c ∈ classes pd
  ↔ ∃ niveau semestre subject code,
      niveau ∈ default [] (json_niveau j)
      ∧ semestre ∈ niveau.2
      ∧ subject ∈ default [] (sem_subjects semestre.2)
      ∧ subj_code subject = Some code ∧ code ≠ ""
      ∧ c = "L" +:+ niveau.1 +:+ "_" +:+ semestre.1.
Proof.
  intros -> Hload Hpre.
  assert (subjects_data (load_data self rooms_file (Content j)).2
          = flatten_subjects j) as Hsubj.
  { unfold load_data in *. by destruct rooms_file. }
  rewrite (classes_elem _ _ c Hpre), Hsubj.
  assert (Forall code_ok (flatten_subjects j)) as Hok.
  { rewrite <- Hsubj. apply preprocess_data_returns.
    by destruct (preprocess_data_stores _ _ Hpre). }
  rewrite flatten_subjects_bind in *. split.
  - intros (e & He & <-).
    apply list_elem_of_omap in He as (s & Hs & He).
    apply list_elem_of_bind in Hs as (niveau & Hs & Hn).
    apply list_elem_of_bind in Hs as (semestre & Hs & Hsem).
    apply list_elem_of_bind in Hs as (subject & Hs & Hsub).
    apply list_elem_of_singleton in Hs as ->.
    apply subject_entry_tagged in He as (Hclass & Hcode & Hne).
    by exists niveau, semestre, subject, e.1.2.
  - intros (niveau & semestre & subject & code & Hn & Hsem & Hsub & Hcode & Hne & ->).
    assert (tag_subject niveau.1 semestre.1 subject
            ∈ (niveau ← default [] (json_niveau j);
               semestre ← niveau.2;
               subject ← default [] (sem_subjects semestre.2);
               [tag_subject niveau.1 semestre.1 subject])) as Hin.
    { apply list_elem_of_bind. exists niveau. split; [|done].
      apply list_elem_of_bind. exists semestre. split; [|done].
      apply list_elem_of_bind. exists subject. split; [|done]. by left. }
    destruct (code_ok_entry (tag_subject niveau.1 semestre.1 subject) code)
      as [e He]; [by eapply (proj1 (Forall_forall _ _) Hok)|done|done|].
    destruct (subject_entry_tagged _ _ _ _ He) as (Hclass & _ & _).
    exists e. split; [|done].
    apply list_elem_of_omap. by exists (tag_subject niveau.1 semestre.1 subject).
Qed.

(** ** The classes of the stored timetable *)

Lemma sorted_nil (s : gset string) : Py.sorted s = [] ↔ s = ∅.
Proof.
  split.
  - intros Hnil. apply set_eq. intros x. rewrite <- elem_of_sorted, Hnil.
    split; [by intros ?%elem_of_nil|by intros ?%elem_of_empty].
  - intros ->. done.
Qed.

Lemma timetable_size_dom (tt : timetable_dict) : size tt = 0%nat ↔ dom tt = ∅.
Proof. by rewrite map_size_empty_iff, dom_empty_iff_L. Qed.

Lemma dom_timetable_set (tt : timetable_dict) c d p s :
  dom (timetable_set tt c d p s) = {[ c ]} ∪ dom tt.
Proof. unfold timetable_set. apply dom_insert_L. Qed.

Lemma extract_dom pd a value c :
  c ∈ dom (extract_timetable pd a value)
  ↔ ∃ kv, kv ∈ a ∧ value kv.2 = true ∧ k_class kv.1 = c.
Proof.
  unfold extract_timetable. induction a as [|kv a IH] using rev_ind.
  - simpl. rewrite dom_empty_L. split; [by intros ?%elem_of_empty|].
    by intros (? & ?%elem_of_nil & _).
  - rewrite for_snoc. destruct (value kv.2) eqn:Hv.
    + rewrite dom_timetable_set, elem_of_union, elem_of_singleton, IH. split.
      * intros [->|(kv' & Hin & ? & ?)].
        -- exists kv. split; [apply elem_of_app; right; by left|done].
        -- exists kv'. split; [apply elem_of_app; by left|done].
      * intros (kv' & [Hin| ->%list_elem_of_singleton]%elem_of_app & ? & ?).
        -- right. by exists kv'.
        -- by left.
    + rewrite IH. split.
      * intros (kv' & Hin & ? & ?). exists kv'.
        split; [apply elem_of_app; by left|done].
      * intros (kv' & [Hin| ->%list_elem_of_singleton]%elem_of_app & Hv' & ?).
        -- by exists kv'.
        -- congruence.
Qed.

Lemma create_model_keeps_processed self Solve :
  processed_data (self_after (create_model self Solve)) = processed_data self.
Proof.
  unfold create_model. destruct (processed_data self) as [pd|] eqn:Hpd; [|done].
  destruct (classes pd); [done|]. destruct (build pd) as [m a].
  destruct (objective_terms pd a); [done|].
  by destruct (status_of _).
Qed.

Section stored_classes.
Context (self : TimeTableGenerator) (pd : processed) (Solve : CpModel → response).
Hypothesis Hpre : preprocess self = Some pd.
Hypothesis Hhonours : honours Solve (model_of pd).
Hypothesis Hreturned :
  returned (create_model (preprocess_data self).2 Solve) = true.

Lemma stored_timetable_dom c :
  c ∈ dom (timetable (self_after (create_model (preprocess_data self).2 Solve)))
  ↔ c ∈ classes pd.
Proof.
  destruct (stored_timetable_eq self pd Solve Hpre Hhonours Hreturned)
    as (Hvars & Hf & Htt).
  rewrite Htt, extract_dom. split.
  - intros (kv & Hin & _ & <-). by destruct (assignments_of_generated _ _ Hin).
  - intros Hc.
    destruct (curriculum_of pd c) as [|co l] eqn:Hco;
      [by destruct (preprocess_curricula _ _ _ Hpre Hc)|].
    assert (co ∈ curriculum_of pd c) as Hin by (rewrite Hco; left).
    destruct (course_placed self pd Solve Hpre Hhonours Hreturned c co Hc Hin)
      as (kv & Hkv & Hkc & _ & Hcell & _).
    rewrite Htt in Hcell.
    apply cell_from_true_var in Hcell as (kv' & ? & ? & ? & _). by exists kv'.
Qed.

Lemma stored_sorted_dom :
  Py.sorted (dom (timetable (self_after (create_model (preprocess_data self).2 Solve))))
  = classes pd.
Proof.
  destruct (preprocess_entries _ _ Hpre) as (st & _ & Hcl & _).
  rewrite Hcl. f_equal. apply set_eq. intros c.
  rewrite <- (elem_of_sorted (pre_classes st)), <- Hcl. apply stored_timetable_dom.
Qed.

(** X13. With a solver that honours its contract, the classes that have a
    timetable are the classes of the class list, and the sorted keys of the
    stored timetable are that list. *)
Theorem timetable_classes :
  (∀ c, is_Some (timetable (self_after
                   (create_model (preprocess_data self).2 Solve)) !! c)
        ↔ c ∈ classes pd)
  ∧ Py.sorted (dom (timetable (self_after
                      (create_model (preprocess_data self).2 Solve))))
    = classes pd.
Proof.
  split.
  - intros c. rewrite <- elem_of_dom. apply stored_timetable_dom.
  - apply stored_sorted_dom.
Qed.



End stored_classes.

(** ** [print_timetable] and [generate_pdf] on any generator *)

Lemma sorted_dom_nonempty (tt : timetable_dict) :
  size tt ≠ 0%nat → Py.sorted (dom tt) ≠ [].
Proof. by rewrite sorted_nil, timetable_size_dom. Qed.

(** X15. [print_timetable] raises exactly when there is a timetable and no
    processed data; on an empty timetable it prints its one line. *)
Theorem print_timetable_raises_iff self :
  (print_timetable self = None
   ↔ timetable self ≠ ∅ ∧ processed_data self = None)
  ∧ (timetable self = ∅ →
     print_timetable self = Some ["Aucun emploi du temps généré."]).
Proof.
  unfold print_timetable. split.
  - case_bool_decide as Hsize.
    + apply map_size_empty_iff in Hsize. split; [done|]. by intros [? _].
    + pose proof (sorted_dom_nonempty _ Hsize) as Hne.
      rewrite map_size_empty_iff in Hsize.
      destruct (Py.sorted _) as [|c cs]; [done|].
      destruct (processed_data self); split; try done. by intros [_ ?].
  - intros ->. done.
Qed.

Lemma print_timetable_with_data self :
  is_Some (processed_data self) → is_Some (print_timetable self).
Proof.
  intros [pd Hpd]. unfold print_timetable. rewrite Hpd.
  case_bool_decide; [done|]. by destruct (Py.sorted _).
Qed.

Lemma pdf_elements_nonempty pd tt cs :
  cs ≠ [] → cs ≫= pdf_elements pd tt ≠ [].
Proof. destruct cs as [|c cs]; [done|]. intros _. by rewrite bind_cons. Qed.

(** X17. [generate_pdf] never reports that there is no valid data, and it
    returns [True] exactly when there is a timetable, there are processed
    data, and the PDF library accepts the elements of the sorted classes. *)
Theorem generate_pdf_outcome self render :
  (generate_pdf self render).2 ≠ PdfNoValidData
  ∧ ((generate_pdf self render).1 = true
     ↔ timetable self ≠ ∅
       ∧ ∃ pd, processed_data self = Some pd
               ∧ render (Py.sorted (dom (timetable self))
                           ≫= pdf_elements pd (timetable self)) = true).
Proof.
  unfold generate_pdf. case_bool_decide as Hsize.
  - apply map_size_empty_iff in Hsize. split; [done|]. simpl.
    split; [done|]. by intros [? _].
  - pose proof (sorted_dom_nonempty _ Hsize) as Hne.
    rewrite map_size_empty_iff in Hsize.
    destruct (Py.sorted _) as [|c cs] eqn:Hcs; [done|].
    destruct (processed_data self) as [pd|].
    + pose proof (pdf_elements_nonempty pd (timetable self) (c :: cs) Hne) as Hel.
      destruct (_ ≫= _) as [|el els] eqn:Hels; [done|].
      destruct (render (el :: els)) eqn:Hr; cbn [fst snd]; (split; [done|]).
      * split; [|done]. intros _. split; [done|]. exists pd.
        split; [done|]. by rewrite Hels.
      * split; [done|]. intros (_ & pd' & [= <-] & Hr').
        rewrite Hels in Hr'. congruence.
    + cbn [fst snd]. split; [done|]. split; [done|]. by intros (_ & ? & ? & _).
Qed.

Lemma len_app s1 s2 : PyStr.len (s1 +:+ s2) = (PyStr.len s1 + PyStr.len s2)%nat.
Proof.
  induction s1 as [|c s1 IH]; [done|]. simpl.
  destruct (PyStr.is_continuation c); simpl; by rewrite IH.
Qed.

Lemma len_take n s : (PyStr.len (PyStr.take n s) ≤ n)%nat.
Proof.
  revert n. induction s as [|c s IH]; intros n; simpl; [lia|].
  destruct (PyStr.is_continuation c) eqn:Hc; simpl.
  - rewrite Hc. apply IH.
  - destruct n as [|n]; simpl; [lia|]. rewrite Hc. specialize (IH n). lia.
Qed.

Lemma take_prefix n s : ∃ rest, s = PyStr.take n s +:+ rest.
Proof.
  revert n. induction s as [|c s IH]; intros n; simpl; [by exists ""|].
  destruct (PyStr.is_continuation c).
  - destruct (IH n) as [rest Hrest]. exists rest.
    change (String c s = String c (PyStr.take n s +:+ rest)). by f_equal.
  - destruct n as [|n]; [by exists (String c s)|].
    destruct (IH n) as [rest Hrest]. exists rest.
    change (String c s = String c (PyStr.take n s +:+ rest)). by f_equal.
Qed.

(** X19. A course name of at most 20 characters is shown as it is; a longer
    one is cut to a prefix of it followed by three dots, 23 characters at
    most. *)
Theorem truncate_name_spec s :
  ((PyStr.len s ≤ 20)%nat → truncate_name s = s)
  ∧ ((20 < PyStr.len s)%nat →
     (∃ prefix rest, s = prefix +:+ rest ∧ truncate_name s = prefix +:+ "...")
     ∧ (PyStr.len (truncate_name s) ≤ 23)%nat).
Proof.
  unfold truncate_name. split; intros Hlen.
  - rewrite bool_decide_eq_false_2 by lia. done.
  - rewrite bool_decide_eq_true_2 by done. split.
    + destruct (take_prefix 20 s) as [rest Hrest]. by exists (PyStr.take 20 s), rest.
    + rewrite len_app. pose proof (len_take 20 s). simpl. lia.
Qed.

(** ** [run] *)

Lemma run_true self rooms_file subjects_file Solve render with_pdf g :
  run self rooms_file subjects_file Solve render with_pdf = Some (true, g) →
  (load_data self rooms_file subjects_file).1 = true
  ∧ ∃ pd,
      preprocess (load_data self rooms_file subjects_file).2 = Some pd
      ∧ returned (create_model
                    (preprocess_data (load_data self rooms_file subjects_file).2).2
                    Solve) = true
      ∧ g = self_after (create_model
                (preprocess_data (load_data self rooms_file subjects_file).2).2 Solve)
      ∧ (with_pdf = true → (generate_pdf g render).1 = true).
Proof.
  unfold run.
  destruct (load_data self rooms_file subjects_file) as [[] loaded]; [|done].
  simpl. unfold preprocess_data.
  destruct (preprocess loaded) as [pd|] eqn:Hpre; [|done]. simpl.
  destruct (returned (create_model _ Solve)) eqn:Hret; [|done]. simpl.
  destruct (print_timetable _); [|done].
  intros Hrun. split; [done|]. exists pd. split; [done|]. split; [done|].
  destruct with_pdf.
  - injection Hrun as Hpdf <-. by split.
  - injection Hrun as <-. by split.
Qed.

(** X20. No exception escapes [run]: [print_timetable] is only reached with
    processed data in place. *)
Theorem run_never_raises self rooms_file subjects_file Solve render with_pdf :
  is_Some (run self rooms_file subjects_file Solve render with_pdf).
Proof.
  unfold run.
  destruct (load_data self rooms_file subjects_file) as [[] loaded]; [|done].
  simpl. destruct (preprocess_data loaded) as [[] g] eqn:Hpp; [|done]. simpl.
  destruct (returned (create_model g Solve)) eqn:Hret; [|done]. simpl.
  assert (is_Some (print_timetable (self_after (create_model g Solve))))
    as [lines ->].
  { apply print_timetable_with_data. rewrite create_model_keeps_processed.
    unfold preprocess_data in Hpp.
    destruct (preprocess loaded) as [pd|]; [|done]. by injection Hpp as <-. }
  by destruct with_pdf.
Qed.

(** X21. When [run] returns [True] with a solver that honours its contract,
    every subject of the file that has a non-empty code is in a cell of the
    timetable of the class of its level and semester. *)
Theorem run_schedules_every_subject
    self rooms_file j Solve render with_pdf g niveau semestre subject code :
  (∀ pd, preprocess (load_data self rooms_file (Content j)).2 = Some pd →
         honours Solve (model_of pd)) →
  run self rooms_file (Content j) Solve render with_pdf = Some (true, g) →
  niveau ∈ default [] (json_niveau j) →
  semestre ∈ niveau.2 →
  subject ∈ default [] (sem_subjects semestre.2) →
  subj_code subject = Some code → code ≠ "" →
  ∃ d p s,
    cell (timetable g) ("L" +:+ niveau.1 +:+ "_" +:+ semestre.1) d p = Some s
    ∧ course s = code.
Proof.
  intros Hhon (Hload & pd & Hpre & Hret & -> & _)%run_true Hn Hsem Hsub Hcode Hne.
  assert (subjects_data (load_data self rooms_file (Content j)).2
          = flatten_subjects j) as Hsubj
    by (unfold load_data in *; by destruct rooms_file).
  assert (Forall code_ok (flatten_subjects j)) as Hok.
  { rewrite <- Hsubj. apply preprocess_data_returns.
    by destruct (preprocess_data_stores _ _ Hpre). }
  assert (tag_subject niveau.1 semestre.1 subject ∈ flatten_subjects j) as Hin.
  { rewrite flatten_subjects_bind.
    apply list_elem_of_bind. exists niveau. split; [|done].
    apply list_elem_of_bind. exists semestre. split; [|done].
    apply list_elem_of_bind. exists subject. split; [|done]. by left. }
  destruct (code_ok_entry (tag_subject niveau.1 semestre.1 subject) code)
    as [e He]; [by eapply (proj1 (Forall_forall _ _) Hok)|done|done|].
  destruct (subject_entry_tagged _ _ _ _ He) as (Hclass & Hcode' & _).
  assert (e.1.2 = code) as Hecode by congruence.
  assert (e ∈ subject_entries
                (subjects_data (load_data self rooms_file (Content j)).2)) as Hentry.
  { rewrite Hsubj. apply list_elem_of_omap.
    by exists (tag_subject niveau.1 semestre.1 subject). }
  assert ("L" +:+ niveau.1 +:+ "_" +:+ semestre.1 ∈ classes pd) as Hc.
  { apply (classes_elem _ _ _ Hpre). by exists e. }
  assert (code ∈ curriculum_of pd ("L" +:+ niveau.1 +:+ "_" +:+ semestre.1)) as Hco.
  { apply (curriculum_elem _ _ _ _ Hpre). by exists e. }
  destruct (course_placed _ pd Solve Hpre (Hhon _ Hpre) Hret _ _ Hc Hco)
    as (kv & _ & _ & Hkco & Hcell & _).
  by exists (k_day kv.1), (k_period kv.1), (session_of pd kv.1).
Qed.

(** ** The scenarios of the further properties, evaluated *)

Lemma listed_twice_preprocess : preprocess listed_twice = Some listed_twice_pd.
Proof. vm_compute. reflexivity. Qed.

Lemma monday_loaded :
  load_data monday_blank monday_rooms_file (Content monday_json) = (true, monday).
Proof. reflexivity. Qed.

Lemma monday_solver_honours : honours monday_solver (model_of monday_pd).
Proof. apply monday_feasible. Qed.

Lemma monday_solver_returned :
  returned (create_model (preprocess_data monday).2 monday_solver) = true.
Proof. by vm_compute. Qed.

Example truncate_name_ex :
  truncate_name "Géométrie algorithmique avancée" = "Géométrie algorithmi..."
  ∧ truncate_name "Bases de données" = "Bases de données".
Proof. split; by vm_compute. Qed.

Example run_monday :
  (λ out, (out.1, cell (timetable out.2) "L1_s1" "Lundi" "10:05-12:55"))
    <$> run monday_blank monday_rooms_file (Content monday_json)
            monday_solver (λ _, true) true
  = Some (true, Some {| course := "C2"; teacher := "T"; room := "R1";
                        course_name := "C2" |}).
Proof. by vm_compute. Qed.

Example print_monday :
  print_timetable
    (self_after (create_model (preprocess_data monday).2 monday_solver))
  = Some [PyStr.newline +:+ PyStr.repeat "=" 80;
          "                           EMPLOI DU TEMPS";
          PyStr.repeat "=" 80;
          PyStr.newline +:+ "Classe: L1_s1";
          PyStr.repeat "-" 80;
          "| Jour        | 07:00-09:55 | 10:05-12:55 |";
          PyStr.repeat "-" 80;
          "| Lundi       | C1" +:+ PyStr.newline +:+ "T" +:+ PyStr.newline
            +:+ "R1       | C2" +:+ PyStr.newline +:+ "T" +:+ PyStr.newline
            +:+ "R1       |";
          PyStr.repeat "-" 80;
          PyStr.newline +:+ PyStr.repeat "=" 80].
Proof. by vm_compute. Qed.

(** ** The further properties at concrete inputs *)

Lemma classes_of_subjects_witness :
  NoDup (classes listed_twice_pd)
  ∧ StronglySorted String.le (classes listed_twice_pd).
Proof.
  apply (proj2 (classes_of_subjects listed_twice listed_twice_pd
                  listed_twice_preprocess)).
Defined.

Lemma curriculum_of_subjects_witness :
  curriculum_of listed_twice_pd "L2_s1"
  = (filter (λ e, e.1.1 = "L2_s1")
            (subject_entries (subjects_data listed_twice))).*1.*2.
Proof.
  apply (curriculum_of_subjects listed_twice listed_twice_pd "L2_s1"
           listed_twice_preprocess).
Defined.

Lemma courses_last_wins_witness :
  courses listed_twice_pd !! "INF111"
  = (λ e, e.2) <$> last (filter (λ e, e.1.2 = "INF111")
                                (subject_entries (subjects_data listed_twice))).
Proof.
  apply (courses_last_wins listed_twice listed_twice_pd "INF111"
           listed_twice_preprocess).
Defined.

Lemma teachers_of_subjects_witness :
  Py.strip "A" = "A" ∧ "A" ≠ "".
Proof.
  apply (proj2 (proj2 (proj2 (teachers_of_subjects listed_twice listed_twice_pd
                                listed_twice_preprocess)))).
  compute_done.
Defined.

Lemma curriculum_courses_known_witness :
  ∃ e, e ∈ subject_entries (subjects_data listed_twice)
       ∧ e.1.2 = "INF111" ∧ courses listed_twice_pd !! "INF111" = Some e.2.
Proof.
  apply (curriculum_courses_known listed_twice listed_twice_pd "L1_s1" "INF111"
           listed_twice_preprocess).
  compute_done.
Defined.

Lemma model_wellformed_witness :
  lits_of (ExactlyOne [0; 1]%nat) ≠ []
  ∧ ∀ v, v ∈ lits_of (ExactlyOne [0; 1]%nat) → v ∈ (assignments_of monday_pd).*2.
Proof.
  apply (proj1 (model_wellformed monday_pd)). rewrite monday_model. left.
Defined.

Lemma create_model_returns_true_iff_witness :
  classes monday_pd ≠ [] ∧ rooms monday_pd ≠ [] ∧ days monday_pd ≠ []
  ∧ periods monday_pd ≠ []
  ∧ (status_of (monday_solver (model_of monday_pd)) = OPTIMAL
     ∨ status_of (monday_solver (model_of monday_pd)) = FEASIBLE).
Proof.
  apply (proj1 (create_model_returns_true_iff monday monday_pd monday_solver
                  monday_preprocess)).
  apply monday_solver_returned.
Defined.

Lemma timetable_cells_from_data_witness :
  "L1_s1" ∈ classes monday_pd ∧ "Lundi" ∈ days monday_pd
  ∧ "10:05-12:55" ∈ (periods monday_pd).*1
  ∧ "C2" ∈ curriculum_of monday_pd "L1_s1"
  ∧ "T" ∈ teachers_for_course monday_pd "C2"
  ∧ "R1" ∈ rooms monday_pd
  ∧ ∃ info, courses monday_pd !! "C2" = Some info ∧ "C2" = name info.
Proof.
  apply (timetable_cells_from_data monday monday_pd monday_solver
           "L1_s1" "Lundi" "10:05-12:55"
           {| course := "C2"; teacher := "T"; room := "R1"; course_name := "C2" |}
           monday_preprocess monday_solver_returned).
  by vm_compute.
Defined.

Lemma timetable_covers_curriculum_witness :
  ∃ d p s,
    cell (timetable (self_after
            (create_model (preprocess_data monday).2 monday_solver))) "L1_s1" d p
    = Some s
    ∧ course s = "C2"
    ∧ ∀ d' p' s',
        cell (timetable (self_after
                (create_model (preprocess_data monday).2 monday_solver)))
             "L1_s1" d' p' = Some s' →
        course s' = "C2" → d' = d ∧ p' = p.
Proof.
  apply (timetable_covers_curriculum monday monday_pd monday_solver
           monday_preprocess monday_solver_honours monday_solver_returned);
    compute_done.
Defined.

Lemma timetable_no_room_conflict_witness : "L1_s1" = "L1_s1".
Proof.
  apply (timetable_no_room_conflict monday monday_pd monday_solver
           monday_preprocess monday_solver_honours monday_solver_returned
           "L1_s1" "L1_s1" "Lundi" "07:00-09:55"
           {| course := "C1"; teacher := "T"; room := "R1"; course_name := "C1" |}
           {| course := "C1"; teacher := "T"; room := "R1"; course_name := "C1" |});
    by vm_compute.
Defined.

Lemma timetable_no_teacher_conflict_witness : "L1_s1" = "L1_s1".
Proof.
  apply (timetable_no_teacher_conflict monday monday_pd monday_solver
           monday_preprocess monday_solver_honours monday_solver_returned
           "L1_s1" "L1_s1" "Lundi" "07:00-09:55"
           {| course := "C1"; teacher := "T"; room := "R1"; course_name := "C1" |}
           {| course := "C1"; teacher := "T"; room := "R1"; course_name := "C1" |});
    [by vm_compute|by vm_compute|done|].
  left. compute_done.
Defined.

Lemma timetable_classes_witness :
  Py.sorted (dom (timetable (self_after
               (create_model (preprocess_data monday).2 monday_solver))))
  = classes monday_pd.
Proof.
  apply (proj2 (timetable_classes monday monday_pd monday_solver
                  monday_preprocess monday_solver_honours monday_solver_returned)).
Defined.

Lemma loaded_classes_witness : "L1_s1" ∈ classes monday_pd.
Proof.
  apply (proj2 (loaded_classes monday_blank monday_rooms_file (Content monday_json)
                  monday_json monday_pd "L1_s1" eq_refl eq_refl monday_preprocess)).
  exists ("1", [("s1", {| sem_subjects :=
                            Some [ taught "C1" "3" "s2" (NameStr "T");
                                   taught "C2" "1" "s1" (NameStr "T") ] |})]),
         ("s1", {| sem_subjects :=
                     Some [ taught "C1" "3" "s2" (NameStr "T");
                            taught "C2" "1" "s1" (NameStr "T") ] |}),
         (taught "C1" "3" "s2" (NameStr "T")), "C1".
  split_and!; [by left|by left|by left|done|done|done].
Defined.

Lemma print_timetable_raises_iff_witness :
  print_timetable (init [] []) = Some ["Aucun emploi du temps généré."].
Proof.
  apply (proj2 (print_timetable_raises_iff (init [] []))). done.
Defined.


Lemma generate_pdf_outcome_witness :
  (generate_pdf
     (self_after (create_model (preprocess_data monday).2 monday_solver))
     (λ _, true)).1 = true.
Proof.
  apply (proj2 (generate_pdf_outcome
                  (self_after (create_model (preprocess_data monday).2 monday_solver))
                  (λ _, true))).
  split; [by vm_compute|]. exists monday_pd. split; [by vm_compute|done].
Defined.

Lemma truncate_name_spec_witness :
  (PyStr.len (truncate_name "Géométrie algorithmique avancée") ≤ 23)%nat.
Proof.
  apply (proj2 (truncate_name_spec "Géométrie algorithmique avancée")).
  vm_compute. lia.
Defined.

Lemma run_schedules_every_subject_witness :
  ∃ d p s,
    cell (timetable (self_after
            (create_model (preprocess_data monday).2 monday_solver)))
         ("L" +:+ "1" +:+ "_" +:+ "s1") d p = Some s
    ∧ course s = "C1".
Proof.
  apply (run_schedules_every_subject monday_blank monday_rooms_file monday_json
           monday_solver (λ _, true) true
           (self_after (create_model (preprocess_data monday).2 monday_solver))
           ("1", [("s1", {| sem_subjects :=
                              Some [ taught "C1" "3" "s2" (NameStr "T");
                                     taught "C2" "1" "s1" (NameStr "T") ] |})])
           ("s1", {| sem_subjects :=
                       Some [ taught "C1" "3" "s2" (NameStr "T");
                              taught "C2" "1" "s1" (NameStr "T") ] |})
           (taught "C1" "3" "s2" (NameStr "T")) "C1").
  - intros pd Hpd. rewrite monday_loaded in Hpd. simpl in Hpd.
    rewrite monday_preprocess in Hpd. injection Hpd as <-.
    apply monday_solver_honours.
  - by vm_compute.
  - by left.
  - by left.
  - by left.
  - done.
  - done.
Defined.
